(** * The Mongo collection data node (taipy/core/data/mongo.py)

    A shallow embedding of [MongoCollectionDataNode]: construction and
    property validation, the query translator of [_read_by_query], the
    default codec, and the read / append / write operations on the
    collection, followed by the properties of the adapter. *)

From Stdlib Require Import ZArith.
From stdpp Require Import gmap strings list fin_maps.

Open Scope string_scope.
Open Scope list_scope.
Set Warnings "-register-all".

(** ** Python data *)

(** The values that travel through the adapter as data: what is written,
    appended, stored in a document or used as the value of a query
    condition.  A [dict] keeps its insertion order, hence the association
    list; its keys are strings, as the keys of a stored document and of
    keyword arguments are.  [VObj] is an instance of a user class, given by
    the name of its class and its [__dict__]; [VObjectId] is the identity
    value the store assigns. *)
Inductive value : Type :=
| VNone
| VBool (b : bool)
| VInt (n : Z)
| VStr (s : string)
| VObjectId (n : nat)
| VList (l : list value)
| VTuple (l : list value)
| VDict (d : list (string * value))
| VObj (cls : string) (fields : list (string * value)).

Definition pydict : Type := list (string * value).

(** [isinstance(v, dict)] and [isinstance(v, list)]. *)
Definition is_dict (v : value) : bool :=
  match v with VDict _ => true | _ => false end.


(** The value is an instance of a user class, the only values here that
    carry a [__dict__]. *)
Definition is_instance (v : value) : bool :=
  match v with VObj _ _ => true | _ => false end.

(** [k in d] and [d.get(k)] on an insertion-ordered dict. *)
Definition dict_has {A} (k : string) (d : list (string * A)) : bool :=
  existsb (fun kv => String.eqb k (fst kv)) d.

Fixpoint dict_get {A} (k : string) (d : list (string * A)) : option A :=
  match d with
  | [] => None
  | (k', v) :: rest => if String.eqb k k' then Some v else dict_get k rest
  end.

(** ** Exceptions and results *)

(** The exception classes the adapter raises or lets through.
    [MissingRequiredProperty] carries the set of missing keys its message
    lists; [DependencyMissing] is what [_check_dependency_is_installed]
    raises; [StoreError] stands for the errors of the store's driver. *)
Inductive exn : Type :=
| MissingRequiredProperty (missing : gset string)
| InvalidCustomDocument
| NotImplementedError
| DependencyMissing
| KeyError (key : string)
| AttributeError (attr : string)
| TypeError
| StoreError
| OtherError (msg : string).

Inductive result (A : Type) : Type :=
| Ok (a : A)
| Raise (e : exn).
Arguments Ok {A} a.
Arguments Raise {A} e.

Definition rbind {A B} (r : result A) (k : A -> result B) : result B :=
  match r with
  | Ok a => k a
  | Raise e => Raise e
  end.

(** A list comprehension [[f(row) for row in rows]]: left to right, the
    first exception ends it. *)
Fixpoint comprehension {A B} (f : A -> result B) (rows : list A) : result (list B) :=
  match rows with
  | [] => Ok []
  | row :: rest =>
      rbind (f row) (fun b => rbind (comprehension f rest) (fun bs => Ok (b :: bs)))
  end.

(** ** The enumerations of [taipy.core.data.operator] *)

(** Modelled from the spec: the module [..data.operator] that declares
    [Operator] and [JoinOperator]; the spec names six comparison operators
    and the two join modes AND and OR. *)
Inductive Operator : Type :=
| EQUAL | NOT_EQUAL | LESS_THAN | LESS_OR_EQUAL | GREATER_THAN | GREATER_OR_EQUAL.

Inductive JoinOperator : Type :=
| AND | OR.

(** Python does not check the annotations of [filter]: the third component
    of a condition and the join argument are either a member of the
    enumeration or some other value, which compares unequal to every
    member. *)
Inductive operator_arg : Type :=
| OpMember (o : Operator)
| OpForeign (v : value).

Inductive join_arg : Type :=
| JoinMember (j : JoinOperator)
| JoinForeign (v : value).

(** A query condition [(key, value, operator)]. *)
Definition condition : Type := string * value * operator_arg.

(** The [operators] argument of [filter] and [_read_by_query]: [None] (the
    default), a list of conditions, or one bare condition tuple. *)
Inductive operators_arg : Type :=
| OpsNone
| OpsList (l : list condition)
| OpsTuple (c : condition).

(** ** The custom document class *)

(** An attribute found on the class by [getattr]: callable or not. *)
Inductive class_attr : Type :=
| Callable (f : value -> result value)
| NotCallable (v : value).

(** The class given as [custom_document]: calling it with keyword arguments
    runs its constructor; [decode] and [encode] are the attributes
    [__init__] probes with [getattr(..., None)]. *)
Record pyclass : Type := {
  cls_name : string;
  cls_init : pydict -> result value;
  cls_decode : option class_attr;
  cls_encode : option class_attr
}.

(** A value of the properties mapping: a class, or plain data. *)
Inductive propvalue : Type :=
| PClass (c : pyclass)
| PValue (v : value).

Definition properties_t : Type := list (string * propvalue).

(** [inspect.isclass]. *)
Definition isclass (p : propvalue) : bool :=
  match p with PClass _ => true | PValue _ => false end.

(** [hash(v)] succeeds: lists and dicts are unhashable, a tuple is
    hashable when its items are. *)
Fixpoint hashable (v : value) : bool :=
  match v with
  | VList _ | VDict _ => false
  | VTuple l => forallb hashable l
  | _ => true
  end.

(** ** Construction *)

Module Keys.
Definition DB_NAME_KEY := "db_name".
Definition COLLECTION_KEY := "collection_name".
Definition DB_USERNAME_KEY := "db_username".
Definition DB_PASSWORD_KEY := "db_password".
Definition DB_HOST_KEY := "db_host".
Definition DB_PORT_KEY := "db_port".
Definition DB_EXTRA_ARGS_KEY := "db_extra_args".
Definition DB_DRIVER_KEY := "db_driver".
Definition DB_HOST_DEFAULT := PValue (VStr "localhost").
Definition DB_PORT_DEFAULT := PValue (VInt 27017).
End Keys.
Import Keys.

Definition STORAGE_TYPE := "mongo_collection".
Definition _CUSTOM_DOCUMENT_PROPERTY := "custom_document".
Definition _REQUIRED_PROPERTIES : list string := [DB_NAME_KEY; COLLECTION_KEY].

Definition storage_type : string := STORAGE_TYPE.

(** The arguments [__init__] hands to [_connect_mongodb]. *)
Record connection_args : Type := {
  db_host : propvalue;
  db_port : propvalue;
  db_username : propvalue;
  db_password : propvalue;
  db_driver : propvalue;
  db_extra_args : pydict
}.

(** What [__init__] takes from outside this file: whether [pymongo] can be
    imported, the version manager, the clock, the constructor of the base
    class [DataNode], the connector, and the lookup of the collection
    handle [mongo_client[db_name][collection_name]] on the client, which
    checks the two names.  The last three may raise. *)
Record environment : Type := {
  pymongo_installed : bool;
  latest_version : string;
  now : Z;
  base_taipy_properties : gset string;
  data_node_init : string -> string -> properties_t -> result unit;
  _connect_mongodb : connection_args -> result unit;
  collection_handle : propvalue -> propvalue -> result unit
}.

(** Modelled from the spec: [_check_dependency_is_installed] of
    [..common._check_dependencies], which makes construction fail when the
    store driver library is not installed. *)
Definition _check_dependency_is_installed (env : environment) : result unit :=
  if pymongo_installed env then Ok tt else Raise DependencyMissing.

(** The adapter instance, as far as this file uses it. *)
Record MongoCollectionDataNode : Type := {
  config_id : string;
  version : string;
  _last_edit_date : Z;
  collection : propvalue * propvalue;
  custom_document : pyclass;
  _decoder : value -> result value;
  _encoder : value -> result value;
  _TAIPY_PROPERTIES : gset string
}.

(** [properties.keys()], [properties[k]] and [properties.get(k, default)]. *)
Definition keys {A} (d : list (string * A)) : list string := d.*1.

Definition getitem {A} (d : list (string * A)) (k : string) : result A :=
  match dict_get k d with
  | Some v => Ok v
  | None => Raise (KeyError k)
  end.

Definition get_default {A} (d : list (string * A)) (k : string) (default : A) : A :=
  match dict_get k d with
  | Some v => v
  | None => default
  end.

(** [_check_custom_document]: raises unless the value is a class.  The
    accepted class is returned, so that [__init__] can use it at its type
    where the source reads [properties["custom_document"]] again. *)
Definition _check_custom_document (custom_document : propvalue) : result pyclass :=
  match custom_document with
  | PClass c => Ok c
  | PValue _ => Raise InvalidCustomDocument
  end.

(** [_default_decoder]: the class is called with the entries of the
    document as keyword arguments; the unpacked operand has to be a
    mapping. *)
Definition _default_decoder (custom_document : pyclass) (document : value) : result value :=
  match document with
  | VDict d => cls_init custom_document d
  | _ => Raise TypeError
  end.

(** [_default_encoder]: [document_object.__dict__].  Of the values modelled
    here only an instance of a user class has a [__dict__]. *)
Definition _default_encoder (document_object : value) : result value :=
  match document_object with
  | VObj _ fields => Ok (VDict fields)
  | _ => Raise (AttributeError "__dict__")
  end.

(** [getattr(cls, name, None)] followed by the [callable] test: the class's
    own function when there is one, the default otherwise. *)
Definition resolve_codec (attr : option class_attr) (default : value -> result value)
  : value -> result value :=
  match attr with
  | Some (Callable f) => f
  | Some (NotCallable _) | None => default
  end.

(** [frozenset(properties.get("db_extra_args", {}).items())]. *)
Definition extra_args_items (p : propvalue) : result pydict :=
  match p with
  | PValue (VDict d) =>
      if forallb (fun kv => hashable kv.2) d then Ok d else Raise TypeError
  | _ => Raise (AttributeError "items")
  end.

(** [__init__].  The identity arguments ([scope], [id], [owner_id],
    [parent_ids], [edits], [validity_period], the editor fields) go to the
    base constructor unchanged and are left out; [version] and
    [last_edit_date] are [None] when absent. *)
Definition __init__ (env : environment) (config_id : string)
    (last_edit_date : option Z) (version : option string)
    (properties : option properties_t) : result MongoCollectionDataNode :=
  rbind (_check_dependency_is_installed env) (fun _ =>
  let properties := default [] properties in
  let required := _REQUIRED_PROPERTIES in
  let missing : gset string := list_to_set required ∖ list_to_set (keys properties) in
  if decide (missing = ∅) then
    rbind (getitem properties _CUSTOM_DOCUMENT_PROPERTY) (fun cd =>
    rbind (_check_custom_document cd) (fun cls =>
    let version :=
      match version with
      | Some v => if String.eqb v "" then latest_version env else v
      | None => latest_version env
      end in
    rbind (data_node_init env config_id version properties) (fun _ =>
    rbind (extra_args_items
             (get_default properties DB_EXTRA_ARGS_KEY (PValue (VDict [])))) (fun extra =>
    rbind (_connect_mongodb env
             {| db_host := get_default properties DB_HOST_KEY DB_HOST_DEFAULT;
                db_port := get_default properties DB_PORT_KEY DB_PORT_DEFAULT;
                db_username := get_default properties DB_USERNAME_KEY (PValue (VStr ""));
                db_password := get_default properties DB_PASSWORD_KEY (PValue (VStr ""));
                db_driver := get_default properties DB_DRIVER_KEY (PValue (VStr ""));
                db_extra_args := extra |}) (fun _ =>
    rbind (collection_handle env
             (get_default properties DB_NAME_KEY (PValue (VStr "")))
             (get_default properties COLLECTION_KEY (PValue (VStr "")))) (fun _ =>
    Ok {| config_id := config_id;
          version := version;
          _last_edit_date := default (now env) last_edit_date;
          collection := (get_default properties DB_NAME_KEY (PValue (VStr "")),
                         get_default properties COLLECTION_KEY (PValue (VStr "")));
          custom_document := cls;
          _decoder := resolve_codec (cls_decode cls) (_default_decoder cls);
          _encoder := resolve_codec (cls_encode cls) _default_encoder;
          _TAIPY_PROPERTIES :=
            base_taipy_properties env ∪
            list_to_set [COLLECTION_KEY; DB_NAME_KEY; _CUSTOM_DOCUMENT_PROPERTY;
                         DB_USERNAME_KEY; DB_PASSWORD_KEY; DB_HOST_KEY; DB_PORT_KEY;
                         DB_DRIVER_KEY; DB_EXTRA_ARGS_KEY] |}))))))
  else Raise (MissingRequiredProperty missing)).

(** ** The query translator *)

(** [operator == Operator.X] and [join_operator == JoinOperator.X]: a
    member equals itself only, a foreign value equals no member. *)
Definition Operator_eqb (a b : Operator) : bool :=
  match a, b with
  | EQUAL, EQUAL | NOT_EQUAL, NOT_EQUAL | LESS_THAN, LESS_THAN
  | LESS_OR_EQUAL, LESS_OR_EQUAL | GREATER_THAN, GREATER_THAN
  | GREATER_OR_EQUAL, GREATER_OR_EQUAL => true
  | _, _ => false
  end.

Definition operator_is (operator : operator_arg) (o : Operator) : bool :=
  match operator with
  | OpMember o' => Operator_eqb o' o
  | OpForeign _ => false
  end.

Definition join_is (join_operator : join_arg) (j : JoinOperator) : bool :=
  match join_operator, j with
  | JoinMember AND, AND | JoinMember OR, OR => true
  | _, _ => false
  end.

(** Truth value of the [operators] argument: [None] and the empty list are
    false, a condition tuple has three items and is true. *)
Definition truthy (operators : operators_arg) : bool :=
  match operators with
  | OpsNone => false
  | OpsList [] => false
  | OpsList (_ :: _) => true
  | OpsTuple _ => true
  end.

(** What [_read_by_query] passes to [collection.find]. *)
Inductive find_args : Type :=
| FindAll
| FindQuery (query : value).

(** One turn of the loop [for key, value, operator in operators]. *)
Definition loop_body (conditions : list value) (c : condition) : list value :=
  let '(key, value, operator) := c in
  if operator_is operator EQUAL then
    conditions ++ [VDict [(key, value)]]
  else if operator_is operator NOT_EQUAL then
    conditions ++ [VDict [(key, VDict [("$ne", value)])]]
  else if operator_is operator GREATER_THAN then
    conditions ++ [VDict [(key, VDict [("$gt", value)])]]
  else if operator_is operator GREATER_OR_EQUAL then
    conditions ++ [VDict [(key, VDict [("$gte", value)])]]
  else if operator_is operator LESS_THAN then
    conditions ++ [VDict [(key, VDict [("$lt", value)])]]
  else if operator_is operator LESS_OR_EQUAL then
    conditions ++ [VDict [(key, VDict [("$lte", value)])]]
  else conditions.

(** The body of [_read_by_query] up to the call of [find]: the argument of
    that call, or the exception raised before it. *)
Definition translate (operators : operators_arg) (join_operator : join_arg)
  : result find_args :=
  if negb (truthy operators) then Ok FindAll
  else
    let operators :=
      match operators with
      | OpsList l => l
      | OpsTuple c => [c]
      | OpsNone => []
      end in
    let conditions := fold_left loop_body operators [] in
    if join_is join_operator AND then
      Ok (FindQuery (VDict [("$and", VList conditions)]))
    else if join_is join_operator OR then
      Ok (FindQuery (VDict [("$or", VList conditions)]))
    else Raise NotImplementedError.

(** ** The collection *)

(** The store behind the collection handle is reached through the driver,
    which is not part of the adapter.  Three things are left open: the
    form in which the store keeps the [n]-th document it is given (it adds
    the identity field), whether it takes the mappings it is asked to
    insert, and how it evaluates a filter on its documents.  For the
    documents held and the mappings to insert, the first being number
    [n], [refusal] is [None] when the store takes them all, and
    [Some (k, e)] when it raises [e] (a duplicate identity, a value it
    cannot encode) after it has stored the first [k] of them.  The store
    keeps its documents in the order of insertion. *)
Record driver : Type := {
  persist : nat -> pydict -> pydict;
  refusal : list value -> nat -> list pydict -> option (nat * exn);
  eval_filter : value -> list value -> result (list value)
}.

(** The state of the collection: the documents it holds, in insertion
    order, and the number of documents inserted so far. *)
Record store : Type := {
  documents : list value;
  inserted : nat
}.

(** Operations on the collection: they return a value or raise, and leave
    a state behind in both cases. *)
Definition M (A : Type) : Type := store -> result A * store.

Definition ret {A} (a : A) : M A := fun st => (Ok a, st).

Definition raise {A} (e : exn) : M A := fun st => (Raise e, st).

Definition bind {A B} (m : M A) (k : A -> M B) : M B :=
  fun st =>
    match m st with
    | (Ok a, st') => k a st'
    | (Raise e, st') => (Raise e, st')
    end.

Definition lift {A} (r : result A) : M A := fun st => (r, st).

Declare Scope py_scope.
Delimit Scope py_scope with py.
Notation "x <- m ;; k" := (bind m (fun x => k))
  (at level 100, m at next level, right associativity) : py_scope.
Notation "m ;; k" := (bind m (fun _ => k))
  (at level 100, right associativity) : py_scope.

Definition as_document (v : value) : result pydict :=
  match v with
  | VDict d => Ok d
  | _ => Raise TypeError
  end.

(** The state [collection.drop()] leaves behind. *)
Definition emptied (st : store) : store :=
  {| documents := []; inserted := inserted st |}.

Section Collection.
Variable drv : driver.

(** The documents as the store keeps them, the first being number [n]. *)
Fixpoint stored (n : nat) (ds : list pydict) : list value :=
  match ds with
  | [] => []
  | d :: rest => VDict (persist drv n d) :: stored (S n) rest
  end.

(** [collection.drop()]. *)
Definition drop : M unit :=
  fun st => (Ok tt, emptied st).

(** [collection.insert_many(data)]: the driver takes a non-empty list of
    mappings and refuses anything else before it writes; the store then
    takes the mappings, or raises after it has stored some of them.  (The
    driver also writes the identity it assigns into the mapping it was
    given: a caller that passes the same mapping again passes it with that
    identity.) *)
Definition insert_many (data : list value) : M unit :=
  fun st =>
    match data with
    | [] => (Raise TypeError, st)
    | _ :: _ =>
        match comprehension as_document data with
        | Ok ds =>
            match refusal drv (documents st) (inserted st) ds with
            | None =>
                (Ok tt, {| documents := documents st ++ stored (inserted st) ds;
                           inserted := inserted st + length ds |})
            | Some (k, e) =>
                (Raise e,
                 {| documents := documents st ++ stored (inserted st) (take k ds);
                    inserted := inserted st + length (take k ds) |})
            end
        | Raise e => (Raise e, st)
        end
    end.

(** [collection.find()] and [collection.find(query)], read to the end. *)
Definition find (q : find_args) : M (list value) :=
  fun st =>
    match q with
    | FindAll => (Ok (documents st), st)
    | FindQuery query => (eval_filter drv query (documents st), st)
    end.

(** *** The operations of the data node *)

Variable self : MongoCollectionDataNode.

Definition _read_by_query (operators : operators_arg) (join_operator : join_arg)
  : M (list value) :=
  (q <- lift (translate operators join_operator) ;; find q)%py.

Definition filter (operators : operators_arg) (join_operator : join_arg)
  : M (list value) :=
  (cursor <- _read_by_query operators join_operator ;;
   lift (comprehension (_decoder self) cursor))%py.

Definition _read : M (list value) :=
  (cursor <- _read_by_query OpsNone (JoinMember AND) ;;
   lift (comprehension (_decoder self) cursor))%py.

Definition _insert_dicts (data : list value) (drop_first : bool) : M unit :=
  ((if drop_first then drop else ret tt) ;;
   insert_many data)%py.

(** [if not isinstance(data, list): data = [data]]. *)
Definition normalize (data : value) : list value :=
  match data with
  | VList l => l
  | _ => [data]
  end.

Definition _append (data : value) : M unit :=
  let data := normalize data in
  match data with
  | [] => ret tt
  | first :: _ =>
      if is_dict first then _insert_dicts data false
      else (docs <- lift (comprehension (_encoder self) data) ;;
            _insert_dicts docs false)%py
  end.

Definition _write (data : value) : M unit :=
  let data := normalize data in
  match data with
  | [] => drop
  | first :: _ =>
      if is_dict first then _insert_dicts data true
      else (docs <- lift (comprehension (_encoder self) data) ;;
            _insert_dicts docs true)%py
  end.

End Collection.

Arguments normalize : simpl never.

(** The state an insertion of the mappings [ds] leaves behind. *)
Definition after_insert (drv : driver) (st : store) (ds : list pydict) : store :=
  {| documents := documents st ++ stored drv (inserted st) ds;
     inserted := inserted st + length ds |}.

(** ** The translator, in the words of the specification *)

(** The single-field predicate section 4.2 gives for each operator. *)
Definition predicate (field : string) (v : value) (op : Operator) : value :=
  match op with
  | EQUAL => VDict [(field, v)]
  | NOT_EQUAL => VDict [(field, VDict [("$ne", v)])]
  | GREATER_THAN => VDict [(field, VDict [("$gt", v)])]
  | GREATER_OR_EQUAL => VDict [(field, VDict [("$gte", v)])]
  | LESS_THAN => VDict [(field, VDict [("$lt", v)])]
  | LESS_OR_EQUAL => VDict [(field, VDict [("$lte", v)])]
  end.

(** The predicates of a condition: one for a supported operator. *)
Definition predicates_of (c : condition) : list value :=
  match c with
  | (field, v, OpMember op) => [predicate field v op]
  | (_, _, OpForeign _) => []
  end.

Definition supported (c : string * value * Operator) : condition :=
  (c.1.1, c.1.2, OpMember c.2).

Definition unsupported (c : string * value * value) : condition :=
  (c.1.1, c.1.2, OpForeign c.2).

Definition join_key (j : JoinOperator) : string :=
  match j with AND => "$and" | OR => "$or" end.

(** ** Classes whose constructor stores its keyword arguments *)

(** A class declared with the parameters [params] and a constructor that
    assigns each of them to the field of the same name: a call with an
    unexpected or a missing keyword is a [TypeError], any other call gives
    an instance whose [__dict__] lists the parameters in their order. *)
Definition field_init (name : string) (params : list string) (kwargs : pydict)
  : result value :=
  if forallb (fun k => bool_decide (k ∈ params)) (keys kwargs) then
    rbind (comprehension
             (fun p => match dict_get p kwargs with
                       | Some v => Ok (p, v)
                       | None => Raise TypeError
                       end) params)
          (fun fields => Ok (VObj name fields))
  else Raise TypeError.

Definition field_class (name : string) (params : list string) : pyclass :=
  {| cls_name := name;
     cls_init := field_init name params;
     cls_decode := None;
     cls_encode := None |}.

(** ** A driver, a class and a node to run the definitions on *)

Module Sample.

(** The store adds the identity field to a document that has none. *)
Definition with_id (n : nat) (d : pydict) : pydict :=
  if dict_has "_id" d then d else d ++ [("_id", VObjectId n)].

(** Equality of two values, component by component. *)
Fixpoint value_eqb (a b : value) : bool :=
  match a, b with
  | VNone, VNone => true
  | VBool x, VBool y => Bool.eqb x y
  | VInt x, VInt y => Z.eqb x y
  | VStr x, VStr y => String.eqb x y
  | VObjectId x, VObjectId y => Nat.eqb x y
  | VList l1, VList l2 | VTuple l1, VTuple l2 =>
      (fix all2 (l1 l2 : list value) : bool :=
         match l1, l2 with
         | [], [] => true
         | x :: xs, y :: ys => value_eqb x y && all2 xs ys
         | _, _ => false
         end) l1 l2
  | VDict d1, VDict d2 =>
      (fix all2 (d1 d2 : list (string * value)) : bool :=
         match d1, d2 with
         | [], [] => true
         | (k1, x) :: xs, (k2, y) :: ys => String.eqb k1 k2 && value_eqb x y && all2 xs ys
         | _, _ => false
         end) d1 d2
  | VObj c1 d1, VObj c2 d2 =>
      String.eqb c1 c2 &&
      (fix all2 (d1 d2 : list (string * value)) : bool :=
         match d1, d2 with
         | [], [] => true
         | (k1, x) :: xs, (k2, y) :: ys => String.eqb k1 k2 && value_eqb x y && all2 xs ys
         | _, _ => false
         end) d1 d2
  | _, _ => false
  end.

(** The values the store can encode: no integer beyond 64 bits and no
    instance of a class, at any depth. *)
Fixpoint encodable (v : value) : bool :=
  match v with
  | VInt n => (- 2 ^ 63 <=? n)%Z && (n <? 2 ^ 63)%Z
  | VObj _ _ => false
  | VList l | VTuple l => forallb encodable l
  | VDict d => forallb (fun kv => match kv with (_, w) => encodable w end) d
  | _ => true
  end.

(** The identity of a stored document, and whether one of the documents
    has the identity [i]. *)
Definition identity (doc : value) : option value :=
  match doc with
  | VDict d => dict_get "_id" d
  | _ => None
  end.

Definition taken (docs : list value) (i : value) : bool :=
  existsb (fun doc => match identity doc with
                      | Some j => value_eqb i j
                      | None => false
                      end) docs.

(** The position of the first mapping whose identity, once assigned, is
    already taken by a document held or by a mapping before it. *)
Fixpoint first_duplicate (docs : list value) (n k : nat) (ds : list pydict)
  : option nat :=
  match ds with
  | [] => None
  | d :: rest =>
      let doc := VDict (with_id n d) in
      match identity doc with
      | Some i =>
          if taken docs i then Some k
          else first_duplicate (docs ++ [doc]) (S n) (S k) rest
      | None => first_duplicate (docs ++ [doc]) (S n) (S k) rest
      end
  end.

(** This store raises before it stores anything when a mapping holds a
    value it cannot encode, and raises at the first duplicate identity,
    having stored the mappings before it.  It evaluates no filter. *)
Definition mongo : driver :=
  {| persist := with_id;
     refusal := fun docs n ds =>
       if forallb (fun d => encodable (VDict d)) ds then
         match first_duplicate docs n 0 ds with
         | Some k => Some (k, StoreError)
         | None => None
         end
       else Some (0, StoreError);
     eval_filter := fun _ _ => Raise StoreError |}.

Definition env : environment :=
  {| pymongo_installed := true;
     latest_version := "1.0";
     now := 0%Z;
     base_taipy_properties := ∅;
     data_node_init := fun _ _ _ => Ok tt;
     _connect_mongodb := fun _ => Ok tt;
     collection_handle := fun db coll =>
       match db, coll with
       | PValue (VStr d), PValue (VStr c) =>
           if String.eqb d "" || String.eqb c "" then Raise (OtherError "InvalidName")
           else Ok tt
       | _, _ => Raise TypeError
       end |}.

(** [class Item], with the fields [_id] and [name]. *)
Definition Item : pyclass := field_class "Item" ["_id"; "name"].

(** [class Flexible], which brings its own codec: [encode] returns a
    mapping as it is and the [__dict__] of an instance, [decode] builds
    an instance from the whole document. *)
Definition Flexible : pyclass :=
  {| cls_name := "Flexible";
     cls_init := fun _ => Raise TypeError;
     cls_decode := Some (Callable (fun doc =>
       match doc with
       | VDict d => Ok (VObj "Flexible" d)
       | _ => Raise TypeError
       end));
     cls_encode := Some (Callable (fun v =>
       match v with
       | VDict _ => Ok v
       | VObj _ fields => Ok (VDict fields)
       | _ => Raise (AttributeError "__dict__")
       end)) |}.

Definition properties (c : pyclass) : properties_t :=
  [("db_name", PValue (VStr "taipy")); ("collection_name", PValue (VStr "items"));
   ("custom_document", PClass c)].

(** The node [__init__] builds for a class. *)
Definition node (c : pyclass) : MongoCollectionDataNode :=
  {| config_id := "items";
     version := "1.0";
     _last_edit_date := 0%Z;
     collection := (PValue (VStr "taipy"), PValue (VStr "items"));
     custom_document := c;
     _decoder := resolve_codec (cls_decode c) (_default_decoder c);
     _encoder := resolve_codec (cls_encode c) _default_encoder;
     _TAIPY_PROPERTIES :=
       ∅ ∪ list_to_set [COLLECTION_KEY; DB_NAME_KEY; _CUSTOM_DOCUMENT_PROPERTY;
                        DB_USERNAME_KEY; DB_PASSWORD_KEY; DB_HOST_KEY; DB_PORT_KEY;
                        DB_DRIVER_KEY; DB_EXTRA_ARGS_KEY] |}.

Definition empty : store := {| documents := []; inserted := 0 |}.

(** The instance [Flexible] decodes the document [d] to. *)
Definition flexible (d : pydict) : value := VObj "Flexible" d.

(** A collection that holds one document. *)
Definition one_item : store :=
  {| documents := [VDict [("name", VStr "pen"); ("_id", VObjectId 0)]];
     inserted := 1 |}.

End Sample.

(** * Properties *)

(** ** Running the definitions *)

Example init_builds_the_node :
  __init__ Sample.env "items" (Some 0%Z) None (Some (Sample.properties Sample.Item))
  = Ok (Sample.node Sample.Item).
Proof. reflexivity. Qed.

Example append_then_read :
  let st := (_append Sample.mongo (Sample.node Sample.Item)
               (VDict [("name", VStr "pen")]) Sample.empty).2 in
  st = Sample.one_item /\
  (_read Sample.mongo (Sample.node Sample.Item) st).1
  = Ok [VObj "Item" [("_id", VObjectId 0); ("name", VStr "pen")]].
Proof. split; reflexivity. Qed.

Example translate_age_gt_30 :
  translate (OpsList [("age", VInt 30, OpMember GREATER_THAN)]) (JoinMember AND)
  = Ok (FindQuery (VDict [("$and", VList [VDict [("age", VDict [("$gt", VInt 30)])]])])).
Proof. reflexivity. Qed.

(** ** Construction *)

Lemma dict_get_None {A} (k : string) (d : list (string * A)) :
  dict_get k d = None <-> k ∉ keys d.
Proof.
  unfold keys. induction d as [|[k' v] d IH]; simpl.
  - split; [intros _; apply not_elem_of_nil | done].
  - rewrite not_elem_of_cons. destruct (String.eqb_spec k k') as [->|Hne].
    + split; [done | intros [? _]; done].
    + rewrite IH. tauto.
Qed.

(** The set of missing keys is empty exactly when both required keys are
    keys of the mapping. *)
Lemma missing_empty (ks : list string) :
  (list_to_set _REQUIRED_PROPERTIES ∖ list_to_set ks : gset string) = ∅
  <-> DB_NAME_KEY ∈ ks /\ COLLECTION_KEY ∈ ks.
Proof.
  unfold _REQUIRED_PROPERTIES. split.
  - intros Hempty. split.
    + destruct (decide (DB_NAME_KEY ∈ ks)) as [|Hn]; [done|].
      exfalso. apply (not_elem_of_empty (C:=gset string) DB_NAME_KEY).
      rewrite <- Hempty, elem_of_difference, !elem_of_list_to_set.
      split; [rewrite !elem_of_cons; tauto | done].
    + destruct (decide (COLLECTION_KEY ∈ ks)) as [|Hn]; [done|].
      exfalso. apply (not_elem_of_empty (C:=gset string) COLLECTION_KEY).
      rewrite <- Hempty, elem_of_difference, !elem_of_list_to_set.
      split; [rewrite !elem_of_cons; tauto | done].
  - intros [H1 H2]. apply set_eq. intros k.
    rewrite elem_of_difference, !elem_of_list_to_set, !elem_of_cons, elem_of_nil.
    split; [|intros H; by apply not_elem_of_empty in H].
    intros [[->|[->|[]]] Hn]; done.
Qed.

(** Once the dependency check and the required keys are passed,
    [__init__] reads the custom document next. *)
Lemma init_reaches_custom_document env cfg led ver (properties : option properties_t) :
  pymongo_installed env = true ->
  DB_NAME_KEY ∈ keys (default [] properties) ->
  COLLECTION_KEY ∈ keys (default [] properties) ->
  forall e,
    rbind (getitem (default [] properties) _CUSTOM_DOCUMENT_PROPERTY)
          _check_custom_document = Raise e ->
    __init__ env cfg led ver properties = Raise e.
Proof.
  intros Hdep Hdb Hcoll e He. unfold __init__, _check_dependency_is_installed.
  rewrite Hdep. cbn [rbind].
  destruct (decide _) as [_|Hne].
  - destruct (getitem (default [] properties) _CUSTOM_DOCUMENT_PROPERTY) as [cd|e'];
      cbn [rbind] in *; [|by injection He as ->].
    by rewrite He.
  - exfalso. apply Hne. apply missing_empty. done.
Qed.

Lemma init_raises_missing env cfg led ver (properties : option properties_t) :
  pymongo_installed env = true ->
  DB_NAME_KEY ∉ keys (default [] properties)
  \/ COLLECTION_KEY ∉ keys (default [] properties) ->
  (list_to_set _REQUIRED_PROPERTIES
   ∖ list_to_set (keys (default [] properties)) : gset string) ≠ ∅
  /\ __init__ env cfg led ver properties
     = Raise (MissingRequiredProperty
                (list_to_set _REQUIRED_PROPERTIES
                 ∖ list_to_set (keys (default [] properties)))).
Proof.
  intros Hdep Hlack.
  assert (Hne : (list_to_set _REQUIRED_PROPERTIES
                 ∖ list_to_set (keys (default [] properties)) : gset string) ≠ ∅).
  { rewrite missing_empty. tauto. }
  split; [done|].
  unfold __init__, _check_dependency_is_installed. rewrite Hdep. cbn [rbind].
  destruct (decide _); done.
Qed.

(** C4. Construction fails with [MissingRequiredProperty] for every
    properties mapping (or absent mapping) that lacks [db_name] or
    [collection_name], whatever the other arguments, once the dependency
    check on the driver library has passed; the exception carries the
    required keys that are missing. *)
Theorem init_missing_required_property env cfg led ver (properties : option properties_t) :
  pymongo_installed env = true ->
  DB_NAME_KEY ∉ keys (default [] properties)
  \/ COLLECTION_KEY ∉ keys (default [] properties) ->
  exists missing : gset string,
    __init__ env cfg led ver properties = Raise (MissingRequiredProperty missing)
    /\ missing ≠ ∅
    /\ forall k, k ∈ missing <->
         k ∈ _REQUIRED_PROPERTIES /\ k ∉ keys (default [] properties).
Proof.
  intros Hdep Hlack.
  destruct (init_raises_missing env cfg led ver properties Hdep Hlack) as [Hne Hinit].
  eexists. split; [exact Hinit|]. split; [done|].
  intros k. rewrite elem_of_difference, !elem_of_list_to_set. done.
Qed.

Lemma init_missing_required_property_witness :
  exists missing : gset string,
    __init__ Sample.env "items" None None
      (Some [("db_name", PValue (VStr "taipy")); ("custom_document", PClass Sample.Item)])
    = Raise (MissingRequiredProperty missing)
    /\ missing ≠ ∅
    /\ forall k, k ∈ missing <->
         k ∈ _REQUIRED_PROPERTIES
         /\ k ∉ keys (default [] (Some [("db_name", PValue (VStr "taipy"));
                                        ("custom_document", PClass Sample.Item)])).
Proof.
  apply (init_missing_required_property Sample.env "items" None None
           (Some [("db_name", PValue (VStr "taipy"));
                  ("custom_document", PClass Sample.Item)])).
  - reflexivity.
  - right. cbn. rewrite !not_elem_of_cons.
    repeat split; try discriminate. apply not_elem_of_nil.
Defined.

(** C5. Without the key [custom_document] no data node is built:
    construction raises for every properties mapping that lacks it, and
    when the dependency check passes and [db_name] and [collection_name]
    are present the exception is the [KeyError] of the lookup. *)
Theorem init_requires_custom_document env cfg led ver (properties : option properties_t) :
  _CUSTOM_DOCUMENT_PROPERTY ∉ keys (default [] properties) ->
  (exists e, __init__ env cfg led ver properties = Raise e)
  /\ (pymongo_installed env = true ->
      DB_NAME_KEY ∈ keys (default [] properties) ->
      COLLECTION_KEY ∈ keys (default [] properties) ->
      __init__ env cfg led ver properties = Raise (KeyError _CUSTOM_DOCUMENT_PROPERTY)).
Proof.
  intros Hlack.
  assert (Hget : getitem (default [] properties) _CUSTOM_DOCUMENT_PROPERTY
                 = Raise (KeyError _CUSTOM_DOCUMENT_PROPERTY)).
  { unfold getitem. apply dict_get_None in Hlack. by rewrite Hlack. }
  assert (Hkey : pymongo_installed env = true ->
      DB_NAME_KEY ∈ keys (default [] properties) ->
      COLLECTION_KEY ∈ keys (default [] properties) ->
      __init__ env cfg led ver properties = Raise (KeyError _CUSTOM_DOCUMENT_PROPERTY)).
  { intros Hdep Hdb Hcoll. apply init_reaches_custom_document; try done.
    by rewrite Hget. }
  split; [|done].
  destruct (pymongo_installed env) eqn:Hdep.
  - destruct (decide (DB_NAME_KEY ∈ keys (default [] properties))) as [Hdb|Hdb];
      [destruct (decide (COLLECTION_KEY ∈ keys (default [] properties))) as [Hcoll|Hcoll]|].
    + eexists. by apply Hkey.
    + destruct (init_raises_missing env cfg led ver properties Hdep) as [_ Hm];
        [by right|]. by eexists.
    + destruct (init_raises_missing env cfg led ver properties Hdep) as [_ Hm];
        [by left|]. by eexists.
  - exists DependencyMissing. unfold __init__, _check_dependency_is_installed.
    by rewrite Hdep.
Qed.

(** Membership of a literal key in a literal list of keys, and its
    negation, by enumeration. *)
Ltac key_in := cbn; rewrite ?elem_of_cons; auto 10.
Ltac key_not_in :=
  cbn; rewrite ?not_elem_of_cons; repeat split; try discriminate; apply not_elem_of_nil.

Lemma init_requires_custom_document_witness :
  (exists e, __init__ Sample.env "items" None None
               (Some [("db_name", PValue (VStr "taipy"));
                      ("collection_name", PValue (VStr "items"))]) = Raise e)
  /\ (pymongo_installed Sample.env = true ->
      DB_NAME_KEY ∈ keys (default [] (Some [("db_name", PValue (VStr "taipy"));
                                            ("collection_name", PValue (VStr "items"))])) ->
      COLLECTION_KEY ∈ keys (default [] (Some [("db_name", PValue (VStr "taipy"));
                                               ("collection_name", PValue (VStr "items"))])) ->
      __init__ Sample.env "items" None None
        (Some [("db_name", PValue (VStr "taipy"));
               ("collection_name", PValue (VStr "items"))])
      = Raise (KeyError _CUSTOM_DOCUMENT_PROPERTY)).
Proof.
  apply (init_requires_custom_document Sample.env "items" None None
           (Some [("db_name", PValue (VStr "taipy"));
                  ("collection_name", PValue (VStr "items"))])).
  key_not_in.
Defined.

(** C6. With [db_name] and [collection_name] present, construction fails
    with [InvalidCustomDocument] whenever the value under
    [custom_document] is not a class (the dependency check on the driver
    library having passed). *)
Theorem init_invalid_custom_document env cfg led ver
    (properties : option properties_t) (p : propvalue) :
  pymongo_installed env = true ->
  DB_NAME_KEY ∈ keys (default [] properties) ->
  COLLECTION_KEY ∈ keys (default [] properties) ->
  dict_get _CUSTOM_DOCUMENT_PROPERTY (default [] properties) = Some p ->
  isclass p = false ->
  __init__ env cfg led ver properties = Raise InvalidCustomDocument.
Proof.
  intros Hdep Hdb Hcoll Hget Hclass.
  apply init_reaches_custom_document; try done.
  unfold getitem. rewrite Hget. cbn [rbind].
  destruct p; [discriminate | reflexivity].
Qed.

Lemma init_invalid_custom_document_witness :
  __init__ Sample.env "items" None None
    (Some [("db_name", PValue (VStr "taipy"));
           ("collection_name", PValue (VStr "items"));
           ("custom_document", PValue (VStr "Item"))])
  = Raise InvalidCustomDocument.
Proof.
  apply (init_invalid_custom_document Sample.env "items" None None
           (Some [("db_name", PValue (VStr "taipy"));
                  ("collection_name", PValue (VStr "items"));
                  ("custom_document", PValue (VStr "Item"))])
           (PValue (VStr "Item"))).
  - reflexivity.
  - key_in.
  - key_in.
  - reflexivity.
  - reflexivity.
Defined.

(** ** The query translator *)

(** The loop appends to [conditions] the predicates of each condition, in
    order. *)
Lemma loop_body_predicates (conditions : list value) (c : condition) :
  loop_body conditions c = conditions ++ predicates_of c.
Proof.
  destruct c as [[key v] [op|w]]; cbn.
  - destruct op; reflexivity.
  - by rewrite app_nil_r.
Qed.

Lemma loop_predicates (l : list condition) (conditions : list value) :
  fold_left loop_body l conditions = conditions ++ flat_map predicates_of l.
Proof.
  revert conditions. induction l as [|c l IH]; intros conditions; cbn [fold_left flat_map].
  - by rewrite app_nil_r.
  - rewrite IH, loop_body_predicates. by rewrite <- app_assoc.
Qed.

Lemma flat_map_supported (cs : list (string * value * Operator)) :
  flat_map predicates_of (map supported cs)
  = map (fun c => predicate c.1.1 c.1.2 c.2) cs.
Proof.
  induction cs as [|[[f v] op] cs IH]; cbn; [done|]. by f_equal.
Qed.

(** A non-empty list of conditions under a join mode of the enumeration. *)
Lemma translate_member (c : condition) (l : list condition) (j : JoinOperator) :
  translate (OpsList (c :: l)) (JoinMember j)
  = Ok (FindQuery (VDict [(join_key j, VList (flat_map predicates_of (c :: l)))])).
Proof.
  unfold translate. cbn [truthy negb]. rewrite loop_predicates.
  destruct j; reflexivity.
Qed.

(** A single condition tuple is wrapped into a list. *)
Lemma translate_tuple (c : condition) (join_operator : join_arg) :
  translate (OpsTuple c) join_operator = translate (OpsList [c]) join_operator.
Proof. reflexivity. Qed.

Lemma join_foreign_is (join_operator : join_arg) (j : JoinOperator) :
  (forall m, join_operator <> JoinMember m) -> join_is join_operator j = false.
Proof.
  intros Hout. destruct join_operator as [m|v]; [|by destruct j].
  by destruct (Hout m).
Qed.

(** C3, as the code has it. For every join mode outside AND and OR: on a
    non-empty sequence of conditions (a non-empty list or a single
    condition tuple) the translation raises [NotImplementedError], and so
    does the query, which leaves the collection as it was; on an absent or
    empty sequence the translation gives the match-all query. *)
Theorem translate_unsupported_join (drv : driver) (operators : operators_arg)
    (join_operator : join_arg) (st : store) :
  (forall m, join_operator <> JoinMember m) ->
  (truthy operators = true ->
     translate operators join_operator = Raise NotImplementedError
     /\ _read_by_query drv operators join_operator st = (Raise NotImplementedError, st))
  /\ (truthy operators = false ->
      translate operators join_operator = Ok FindAll
      /\ _read_by_query drv operators join_operator st = (Ok (documents st), st)).
Proof.
  intros Hout. split; intros Hne.
  - assert (Ht : translate operators join_operator = Raise NotImplementedError).
    { unfold translate. rewrite Hne. cbn [negb].
      by rewrite !join_foreign_is. }
    split; [done|]. unfold _read_by_query, bind, lift. by rewrite Ht.
  - assert (Ht : translate operators join_operator = Ok FindAll).
    { unfold translate. by rewrite Hne. }
    split; [done|]. unfold _read_by_query, bind, lift. by rewrite Ht.
Qed.

Lemma translate_unsupported_join_witness :
  translate (OpsList [("age", VInt 30, OpMember GREATER_THAN)]) (JoinForeign (VStr "XOR"))
  = Raise NotImplementedError
  /\ _read_by_query Sample.mongo (OpsList [("age", VInt 30, OpMember GREATER_THAN)])
       (JoinForeign (VStr "XOR")) Sample.one_item
     = (Raise NotImplementedError, Sample.one_item).
Proof.
  destruct (translate_unsupported_join Sample.mongo
              (OpsList [("age", VInt 30, OpMember GREATER_THAN)])
              (JoinForeign (VStr "XOR")) Sample.one_item) as [Hraise _].
  - intros m. discriminate.
  - apply Hraise. reflexivity.
Defined.

(** C3, as stated, fails on the empty sequence: the translation returns the
    match-all query before it looks at the join mode, and the query returns
    the documents of the collection. *)
Lemma translate_empty_ignores_join :
  translate (OpsList []) (JoinForeign (VStr "XOR")) = Ok FindAll
  /\ _read_by_query Sample.mongo (OpsList []) (JoinForeign (VStr "XOR")) Sample.one_item
     = (Ok (documents Sample.one_item), Sample.one_item)
  /\ ~ (forall (operators : list condition) (join_operator : join_arg),
          (forall m, join_operator <> JoinMember m) ->
          translate (OpsList operators) join_operator = Raise NotImplementedError).
Proof.
  split; [reflexivity|]. split; [reflexivity|].
  intros Hclaim. specialize (Hclaim [] (JoinForeign (VStr "XOR"))).
  discriminate Hclaim. intros m. discriminate.
Qed.

(** C7. The translator: an absent or empty sequence gives the match-all
    query; a condition with one of the six operators gives the predicate of
    section 4.2; the predicates of a non-empty list are joined, in order,
    under [$and] for AND and under [$or] for OR; a bare condition tuple is
    translated as the one-element list. *)
Theorem translate_conditions :
  (forall join_operator,
     translate OpsNone join_operator = Ok FindAll
     /\ translate (OpsList []) join_operator = Ok FindAll)
  /\ (forall drv st, find drv FindAll st = (Ok (documents st), st))
  /\ (forall field v,
        loop_body [] (field, v, OpMember EQUAL) = [VDict [(field, v)]]
        /\ loop_body [] (field, v, OpMember NOT_EQUAL) = [VDict [(field, VDict [("$ne", v)])]]
        /\ loop_body [] (field, v, OpMember GREATER_THAN) = [VDict [(field, VDict [("$gt", v)])]]
        /\ loop_body [] (field, v, OpMember GREATER_OR_EQUAL)
           = [VDict [(field, VDict [("$gte", v)])]]
        /\ loop_body [] (field, v, OpMember LESS_THAN) = [VDict [(field, VDict [("$lt", v)])]]
        /\ loop_body [] (field, v, OpMember LESS_OR_EQUAL)
           = [VDict [(field, VDict [("$lte", v)])]])
  /\ (forall (c : string * value * Operator) (cs : list (string * value * Operator)),
        translate (OpsList (map supported (c :: cs))) (JoinMember AND)
        = Ok (FindQuery
                (VDict [("$and",
                         VList (map (fun c => predicate c.1.1 c.1.2 c.2) (c :: cs)))]))
        /\ translate (OpsList (map supported (c :: cs))) (JoinMember OR)
           = Ok (FindQuery
                   (VDict [("$or",
                            VList (map (fun c => predicate c.1.1 c.1.2 c.2) (c :: cs)))])))
  /\ (forall (c : condition) join_operator,
        translate (OpsTuple c) join_operator = translate (OpsList [c]) join_operator).
Proof.
  split; [by intros j|]. split; [done|].
  split; [by intros field v|]. split; [|apply translate_tuple].
  intros c cs. change (map supported (c :: cs)) with (supported c :: map supported cs).
  rewrite !translate_member.
  change (supported c :: map supported cs) with (map supported (c :: cs)).
  rewrite flat_map_supported. done.
Qed.

Lemma flat_map_unsupported (us : list (string * value * value)) :
  flat_map predicates_of (map unsupported us) = [].
Proof. induction us as [|[[f v] w] us IH]; cbn; done. Qed.

(** C10. A condition whose operator is none of the six is passed over in
    silence: the loop leaves the list of predicates as it was, the
    translation under AND or OR does not raise and gives the filter over
    the predicates of the other conditions; a non-empty list of such
    conditions alone gives [$and] or [$or] over the empty list. *)
Theorem translate_skips_unsupported_operator :
  (forall (conditions : list value) field v w,
     loop_body conditions (field, v, OpForeign w) = conditions)
  /\ (forall (pre post : list condition) field v w (j : JoinOperator),
        translate (OpsList (pre ++ (field, v, OpForeign w) :: post)) (JoinMember j)
        = Ok (FindQuery
                (VDict [(join_key j, VList (fold_left loop_body (pre ++ post) []))])))
  /\ (forall (u : string * value * value) (us : list (string * value * value))
             (j : JoinOperator),
        translate (OpsList (map unsupported (u :: us))) (JoinMember j)
        = Ok (FindQuery (VDict [(join_key j, VList [])]))).
Proof.
  split; [done|]. split.
  - intros pre post field v w j.
    assert (Hskip : flat_map predicates_of (pre ++ (field, v, OpForeign w) :: post)
                    = fold_left loop_body (pre ++ post) []).
    { rewrite loop_predicates, !flat_map_app. done. }
    rewrite <- Hskip.
    destruct pre as [|c pre]; cbn [app]; apply translate_member.
  - intros u us j. change (map unsupported (u :: us)) with (unsupported u :: map unsupported us).
    rewrite translate_member.
    change (unsupported u :: map unsupported us) with (map unsupported (u :: us)).
    by rewrite flat_map_unsupported.
Qed.

(** ** The collection *)

Lemma comprehension_length {A B} (f : A -> result B) (l : list A) (r : list B) :
  comprehension f l = Ok r -> length r = length l.
Proof.
  revert r. induction l as [|a l IH]; intros r; cbn.
  - by intros [= <-].
  - destruct (f a) as [b|]; cbn; [|done].
    destruct (comprehension f l) as [bs|]; cbn; [|done].
    intros [= <-]. cbn. f_equal. by apply IH.
Qed.

Lemma stored_length (drv : driver) (ds : list pydict) (n : nat) :
  length (stored drv n ds) = length ds.
Proof. revert n. induction ds as [|d ds IH]; intros n; cbn; [done|]. by rewrite IH. Qed.

Lemma insert_dicts_keep (drv : driver) (data : list value) (st : store) :
  _insert_dicts drv data false st = insert_many drv data st.
Proof. reflexivity. Qed.

Lemma insert_dicts_drop (drv : driver) (data : list value) (st : store) :
  _insert_dicts drv data true st = insert_many drv data (emptied st).
Proof. reflexivity. Qed.

(** A non-empty list of mappings that the store takes is inserted, in
    order, after the documents already there; when the store refuses it,
    the exception of the store comes out and the mappings stored before
    the refusal stay. *)
Lemma insert_many_mappings (drv : driver) (data : list value) (ds : list pydict)
    (st : store) :
  data <> [] ->
  comprehension as_document data = Ok ds ->
  refusal drv (documents st) (inserted st) ds = None ->
  insert_many drv data st = (Ok tt, after_insert drv st ds).
Proof.
  intros Hne Hds Hacc. unfold insert_many. destruct data; [done|].
  by rewrite Hds, Hacc.
Qed.


(** Whatever it is given, [insert_many] keeps the documents it finds. *)
Lemma insert_many_keeps (drv : driver) (data : list value) (st : store) :
  documents st `prefix_of` documents (insert_many drv data st).2.
Proof.
  unfold insert_many. destruct data as [|x l]; [done|].
  destruct (comprehension as_document (x :: l)); cbn; [|done].
  destruct (refusal drv _ _ _) as [[k e]|]; cbn; by apply prefix_app_r.
Qed.

(** The two branches of [_append] and [_write] on a non-empty list. *)
Lemma append_first_mapping drv self data first rest st :
  normalize data = first :: rest -> is_dict first = true ->
  _append drv self data st = _insert_dicts drv (first :: rest) false st.
Proof. intros Hn Hd. unfold _append. by rewrite Hn, Hd. Qed.

Lemma write_first_mapping drv self data first rest st :
  normalize data = first :: rest -> is_dict first = true ->
  _write drv self data st = _insert_dicts drv (first :: rest) true st.
Proof. intros Hn Hd. unfold _write. by rewrite Hn, Hd. Qed.

Lemma append_first_other drv self data first rest st :
  normalize data = first :: rest -> is_dict first = false ->
  _append drv self data st
  = match comprehension (_encoder self) (first :: rest) with
    | Ok docs => _insert_dicts drv docs false st
    | Raise e => (Raise e, st)
    end.
Proof.
  intros Hn Hd. unfold _append. rewrite Hn, Hd. unfold bind, lift.
  by destruct (comprehension _ _).
Qed.

Lemma write_first_other drv self data first rest st :
  normalize data = first :: rest -> is_dict first = false ->
  _write drv self data st
  = match comprehension (_encoder self) (first :: rest) with
    | Ok docs => _insert_dicts drv docs true st
    | Raise e => (Raise e, st)
    end.
Proof.
  intros Hn Hd. unfold _write. rewrite Hn, Hd. unfold bind, lift.
  by destruct (comprehension _ _).
Qed.

(** Reading everything decodes the documents of the collection in order
    and leaves the collection as it is. *)
Lemma read_decodes_documents drv self st :
  _read drv self st = (comprehension (_decoder self) (documents st), st).
Proof. reflexivity. Qed.

(** Filtering on no condition reads everything. *)
Lemma filter_nothing_is_read drv self join_operator st :
  filter drv self (OpsList []) join_operator st = _read drv self st
  /\ filter drv self OpsNone join_operator st = _read drv self st.
Proof. split; reflexivity. Qed.

(** C2, as the code has it. On a non-empty normalized list the first
    element alone decides: when it is a mapping, the list is handed to the
    insertion as it is; when it is not, every element goes through the
    resolved encoder, in order, and the results are handed to the
    insertion, while an exception of the encoder ends the call before the
    collection is touched.  A list of mappings handed to the insertion is
    stored after the documents present (after none, when the collection
    is dropped first) when the store takes it. *)
Theorem insertion_decided_by_first_element drv self data first rest st :
  normalize data = first :: rest ->
  (is_dict first = true ->
     _append drv self data st = _insert_dicts drv (first :: rest) false st
     /\ _write drv self data st = _insert_dicts drv (first :: rest) true st)
  /\ (is_dict first = false ->
      (forall docs, comprehension (_encoder self) (first :: rest) = Ok docs ->
         _append drv self data st = _insert_dicts drv docs false st
         /\ _write drv self data st = _insert_dicts drv docs true st)
      /\ (forall e, comprehension (_encoder self) (first :: rest) = Raise e ->
           _append drv self data st = (Raise e, st)
           /\ _write drv self data st = (Raise e, st)))
  /\ (forall docs ds, docs <> [] -> comprehension as_document docs = Ok ds ->
        (refusal drv (documents st) (inserted st) ds = None ->
           _insert_dicts drv docs false st = (Ok tt, after_insert drv st ds))
        /\ (refusal drv [] (inserted st) ds = None ->
             _insert_dicts drv docs true st = (Ok tt, after_insert drv (emptied st) ds))).
Proof.
  intros Hn. split; [|split].
  - intros Hd. split; [by apply append_first_mapping | by apply write_first_mapping].
  - intros Hd. split.
    + intros docs Henc. split.
      * rewrite (append_first_other _ _ _ _ _ _ Hn Hd). by rewrite Henc.
      * rewrite (write_first_other _ _ _ _ _ _ Hn Hd). by rewrite Henc.
    + intros e Henc. split.
      * rewrite (append_first_other _ _ _ _ _ _ Hn Hd). by rewrite Henc.
      * rewrite (write_first_other _ _ _ _ _ _ Hn Hd). by rewrite Henc.
  - intros docs ds Hne Hds. rewrite insert_dicts_keep, insert_dicts_drop.
    split; intros Hacc; by apply insert_many_mappings.
Qed.

Lemma insertion_decided_by_first_element_witness :
  _append Sample.mongo (Sample.node Sample.Item) (VDict [("name", VStr "pen")])
    Sample.empty
  = _insert_dicts Sample.mongo [VDict [("name", VStr "pen")]] false Sample.empty
  /\ _write Sample.mongo (Sample.node Sample.Item)
       (VList [VObj "Item" [("_id", VInt 7); ("name", VStr "ink")]]) Sample.one_item
     = _insert_dicts Sample.mongo [VDict [("_id", VInt 7); ("name", VStr "ink")]] true
         Sample.one_item.
Proof.
  split.
  - destruct (insertion_decided_by_first_element Sample.mongo (Sample.node Sample.Item)
                (VDict [("name", VStr "pen")]) (VDict [("name", VStr "pen")]) []
                Sample.empty eq_refl) as [Hmapping _].
    apply Hmapping. reflexivity.
  - destruct (insertion_decided_by_first_element Sample.mongo (Sample.node Sample.Item)
                (VList [VObj "Item" [("_id", VInt 7); ("name", VStr "ink")]])
                (VObj "Item" [("_id", VInt 7); ("name", VStr "ink")]) []
                Sample.one_item eq_refl) as [_ [Hother _]].
    apply Hother; reflexivity.
Defined.

(** C2, as stated, fails on a list that starts with a mapping and holds
    something else: not every element is a mapping, the encoder of the
    class accepts both elements, and yet the list reaches the insertion
    unencoded, where the store refuses it; encoding every element first
    would have stored two documents. *)
Lemma mixed_list_is_not_encoded :
  let self := Sample.node Sample.Flexible in
  let data := [VDict [("name", VStr "pen")]; VObj "Flexible" [("name", VStr "ink")]] in
  forallb is_dict data = false
  /\ comprehension (_encoder self) data
     = Ok [VDict [("name", VStr "pen")]; VDict [("name", VStr "ink")]]
  /\ _append Sample.mongo self (VList data) Sample.empty = (Raise TypeError, Sample.empty)
  /\ _write Sample.mongo self (VList data) Sample.one_item
     = (Raise TypeError, emptied Sample.one_item)
  /\ bind (lift (comprehension (_encoder self) data))
          (fun docs => _insert_dicts Sample.mongo docs false) Sample.empty
     = (Ok tt, {| documents := [VDict [("name", VStr "pen"); ("_id", VObjectId 0)];
                               VDict [("name", VStr "ink"); ("_id", VObjectId 1)]];
                  inserted := 2 |})
  /\ ~ (forall (l : list value) (st : store),
          l <> [] -> forallb is_dict l = false ->
          _append Sample.mongo self (VList l) st
          = bind (lift (comprehension (_encoder self) l))
                 (fun docs => _insert_dicts Sample.mongo docs false) st).
Proof.
  cbv zeta. repeat (split; [reflexivity|]).
  intros Hclaim.
  specialize (Hclaim [VDict [("name", VStr "pen")]; VObj "Flexible" [("name", VStr "ink")]]
                Sample.empty).
  discriminate Hclaim; done.
Qed.


(** The elements that reach the insertion for a non-empty list: the list
    itself when its first element is a mapping, its encoding otherwise. *)
Lemma reaches_insertion drv self data first rest docs st :
  normalize data = first :: rest ->
  (if is_dict first then Ok (first :: rest)
   else comprehension (_encoder self) (first :: rest)) = Ok docs ->
  docs <> []
  /\ _write drv self data st = insert_many drv docs (emptied st)
  /\ _append drv self data st = insert_many drv docs st.
Proof.
  intros Hn Hdocs.
  assert (Hne : docs <> []).
  { destruct (is_dict first).
    - by injection Hdocs as <-.
    - apply comprehension_length in Hdocs. by destruct docs. }
  split; [done|].
  destruct (is_dict first) eqn:Hd.
  - injection Hdocs as <-.
    by rewrite (write_first_mapping _ _ _ _ _ _ Hn Hd), (append_first_mapping _ _ _ _ _ _ Hn Hd).
  - rewrite (write_first_other _ _ _ _ _ _ Hn Hd), (append_first_other _ _ _ _ _ _ Hn Hd).
    by rewrite Hdocs.
Qed.




(** Appending never removes a document: the documents found are an
    initial segment of the documents left, whether the call returns or
    raises. *)
Lemma append_keeps drv self data st :
  documents st `prefix_of` documents (_append drv self data st).2.
Proof.
  destruct (normalize data) as [|first rest] eqn:Hn.
  - unfold _append. by rewrite Hn.
  - destruct (is_dict first) eqn:Hd.
    + rewrite (append_first_mapping _ _ _ _ _ _ Hn Hd), insert_dicts_keep.
      apply insert_many_keeps.
    + rewrite (append_first_other _ _ _ _ _ _ Hn Hd).
      destruct (comprehension _ _) as [docs|e]; [|done].
      rewrite insert_dicts_keep. apply insert_many_keeps.
Qed.

(** C9, as the code has it. Appending an empty list returns at once and
    leaves the collection as it is; no call of [_append] removes a
    document, whether it returns or raises; a call [append([x])] that
    returns has added exactly one document, and it does return, storing
    the one mapping after the documents present, when [x] is a mapping or
    is encoded to one and the store takes that mapping; when the encoder
    raises on [x], the call raises and the collection is as it was. *)
Theorem append_keeps_documents drv self st :
  (forall data, normalize data = [] -> _append drv self data st = (Ok tt, st))
  /\ (forall data, documents st `prefix_of` documents (_append drv self data st).2)
  /\ (forall x, (_append drv self (VList [x]) st).1 = Ok tt ->
        length (documents (_append drv self (VList [x]) st).2)
        = S (length (documents st)))
  /\ (forall x d,
        x = VDict d \/ (is_dict x = false /\ _encoder self x = Ok (VDict d)) ->
        refusal drv (documents st) (inserted st) [d] = None ->
        _append drv self (VList [x]) st = (Ok tt, after_insert drv st [d]))
  /\ (forall x e, is_dict x = false -> _encoder self x = Raise e ->
        _append drv self (VList [x]) st = (Raise e, st)).
Proof.
  assert (Hstore : forall x d,
             x = VDict d \/ (is_dict x = false /\ _encoder self x = Ok (VDict d)) ->
             refusal drv (documents st) (inserted st) [d] = None ->
             _append drv self (VList [x]) st = (Ok tt, after_insert drv st [d])).
  { intros x d Hx Hacc.
    destruct (reaches_insertion drv self (VList [x]) x [] [VDict d] st eq_refl)
      as (_ & _ & ->).
    - destruct Hx as [->|[Hd Henc]]; [done|]. rewrite Hd. cbn. by rewrite Henc.
    - by apply insert_many_mappings. }
  split; [|split; [|split; [|split; [exact Hstore|]]]].
  - intros data Hn. unfold _append. by rewrite Hn.
  - intros data. apply append_keeps.
  - intros x.
    destruct (_append drv self (VList [x]) st) as [r st'] eqn:Happend. cbn.
    intros ->.
    assert (Hins : exists docs, length docs = 1
                                /\ insert_many drv docs st = (Ok tt, st')).
    { destruct (is_dict x) eqn:Hd.
      - rewrite (append_first_mapping drv self (VList [x]) x [] st eq_refl Hd),
          insert_dicts_keep in Happend. by exists [x].
      - rewrite (append_first_other drv self (VList [x]) x [] st eq_refl Hd) in Happend.
        destruct (comprehension (_encoder self) [x]) as [docs|] eqn:Henc; [|done].
        exists docs. split; [by apply comprehension_length in Henc | done]. }
    destruct Hins as (docs & Hlen & Hins).
    unfold insert_many in Hins. destruct docs as [|v docs]; [done|].
    destruct (comprehension as_document (v :: docs)) as [ds|] eqn:Hds; [|done].
    apply comprehension_length in Hds.
    destruct (refusal drv _ _ _) as [[k e]|]; [done|].
    injection Hins as <-. cbn [documents]. rewrite length_app, stored_length. lia.
  - intros x e Hd Henc.
    rewrite (append_first_other drv self (VList [x]) x [] st eq_refl Hd). cbn.
    by rewrite Henc.
Qed.

Lemma append_keeps_documents_witness :
  length (documents (_append Sample.mongo (Sample.node Sample.Item)
                       (VList [VDict [("name", VStr "ink")]]) Sample.one_item).2)
  = S (length (documents Sample.one_item))
  /\ _append Sample.mongo (Sample.node Sample.Flexible)
       (VList [VObj "Flexible" [("name", VStr "ink")]]) Sample.one_item
     = (Ok tt, after_insert Sample.mongo Sample.one_item [[("name", VStr "ink")]])
  /\ _append Sample.mongo (Sample.node Sample.Item) (VList [VInt 5]) Sample.one_item
     = (Raise (AttributeError "__dict__"), Sample.one_item).
Proof.
  destruct (append_keeps_documents Sample.mongo (Sample.node Sample.Item) Sample.one_item)
    as (_ & _ & Hone & _ & Hraise).
  destruct (append_keeps_documents Sample.mongo (Sample.node Sample.Flexible)
              Sample.one_item) as (_ & _ & _ & Hstore & _).
  split; [|split].
  - apply Hone. reflexivity.
  - apply Hstore; [|reflexivity]. right. split; reflexivity.
  - apply Hraise; reflexivity.
Defined.

(** C9, as stated, fails on an element the encoder refuses: [append([5])]
    on a collection that holds a document raises and adds nothing. *)
Lemma append_unencodable_adds_nothing :
  let self := Sample.node Sample.Item in
  documents Sample.one_item <> []
  /\ _append Sample.mongo self (VList [VInt 5]) Sample.one_item
     = (Raise (AttributeError "__dict__"), Sample.one_item)
  /\ ~ (forall (x : value) (st : store),
          documents st <> [] ->
          length (documents (_append Sample.mongo self (VList [x]) st).2)
          = S (length (documents st))).
Proof.
  cbv zeta. split; [done|]. split; [reflexivity|].
  intros Hclaim. specialize (Hclaim (VInt 5) Sample.one_item).
  discriminate Hclaim. done.
Qed.

(** ** The default codec *)

Lemma dict_get_elem {A} (k : string) (d : list (string * A)) (v : A) :
  dict_get k d = Some v -> (k, v) ∈ d.
Proof.
  induction d as [|[k' v'] d IH]; cbn; [done|].
  destruct (String.eqb_spec k k') as [->|Hne].
  - intros [= ->]. apply elem_of_cons. by left.
  - intros Hget. apply elem_of_cons. right. by apply IH.
Qed.

Lemma elem_dict_get {A} (k : string) (d : list (string * A)) (v : A) :
  NoDup (keys d) -> (k, v) ∈ d -> dict_get k d = Some v.
Proof.
  unfold keys. induction d as [|[k' v'] d IH]; cbn.
  - intros _ Hin. by apply elem_of_nil in Hin.
  - intros Hnd Hin. apply NoDup_cons in Hnd as [Hfresh Hnd].
    apply elem_of_cons in Hin as [[= -> ->]|Hin].
    + by rewrite String.eqb_refl.
    + destruct (String.eqb_spec k k') as [->|Hne]; [|by apply IH].
      destruct Hfresh. by apply (list_elem_of_fmap_2 fst _ (k', v)).
Qed.

(** Binding the parameters of the constructor to the keyword arguments
    succeeds when every parameter is a keyword; the fields come out in the
    order of the parameters, each with the value of its keyword. *)
Lemma bind_parameters (kwargs : pydict) (params : list string) :
  (forall p, p ∈ params -> p ∈ keys kwargs) ->
  exists fields,
    comprehension (fun p => match dict_get p kwargs with
                            | Some v => Ok (p, v)
                            | None => Raise TypeError
                            end) params = Ok fields
    /\ keys fields = params
    /\ forall k v, (k, v) ∈ fields -> dict_get k kwargs = Some v.
Proof.
  unfold keys. induction params as [|p params IH]; intros Hsub.
  - exists []. split; [done|]. split; [done|].
    intros k v Hin. by apply elem_of_nil in Hin.
  - destruct IH as (fields & Hc & Hk & Hv).
    { intros q Hq. apply Hsub, elem_of_cons. by right. }
    destruct (dict_get p kwargs) as [v|] eqn:Hget.
    + exists ((p, v) :: fields). cbn. rewrite Hget, Hc. cbn. rewrite Hk.
      split; [done|]. split; [done|].
      intros k w [[= -> ->]|Hin]%elem_of_cons; [done|by apply Hv].
    + apply dict_get_None in Hget. destruct Hget. apply Hsub, elem_of_cons. by left.
Qed.

(** C8. Round trip of the default codec. For a class whose constructor
    assigns each keyword argument to the field of the same name, and a
    document whose keys are exactly the parameters of that constructor,
    the default decoder builds an instance, the default encoder returns
    the [__dict__] of that instance, and this mapping is equal to the
    document: the same keys with the same values. *)
Theorem default_codec_round_trip (name : string) (params : list string) (d : pydict) :
  NoDup params ->
  NoDup (keys d) ->
  keys d ≡ₚ params ->
  exists (obj : value) (fields : pydict),
    _default_decoder (field_class name params) (VDict d) = Ok obj
    /\ _default_encoder obj = Ok (VDict fields)
    /\ fields ≡ₚ d
    /\ (list_to_map fields : gmap string value) = list_to_map d
    /\ forall k, dict_get k fields = dict_get k d.
Proof.
  intros Hparams Hkeys Hperm.
  destruct (bind_parameters d params) as (fields & Hc & Hk & Hv).
  { intros p Hp. by rewrite Hperm. }
  assert (Hnd : NoDup (keys fields)) by by rewrite Hk.
  assert (Hfd : fields ≡ₚ d).
  { apply NoDup_Permutation.
    - by apply (NoDup_fmap_1 fst).
    - by apply (NoDup_fmap_1 fst).
    - intros [k v]. split.
      + intros Hin. by apply dict_get_elem, Hv.
      + intros Hin.
        assert (Hkp : k ∈ keys fields).
        { rewrite Hk, <- Hperm. by apply (list_elem_of_fmap_2 fst _ (k, v)). }
        apply list_elem_of_fmap in Hkp as ([k' v'] & -> & Hin').
        cbn in *. apply Hv in Hin' as Hget.
        rewrite (elem_dict_get _ _ _ Hkeys Hin) in Hget. by injection Hget as ->. }
  exists (VObj name fields), fields.
  split; [|split; [done|split; [done|split]]].
  - cbn. unfold field_init.
    assert (Hall : forallb (fun k => bool_decide (k ∈ params)) (keys d) = true).
    { apply Is_true_eq_true, forallb_True, Forall_forall.
      intros k Hk'. apply bool_decide_pack. by rewrite <- Hperm. }
    rewrite Hall, Hc. done.
  - by apply list_to_map_proper.
  - intros k. destruct (dict_get k d) as [v|] eqn:Hget.
    + apply elem_dict_get; [done|]. rewrite Hfd. by apply dict_get_elem.
    + apply dict_get_None. apply dict_get_None in Hget. by rewrite Hk, <- Hperm.
Qed.

Lemma default_codec_round_trip_witness :
  exists (obj : value) (fields : pydict),
    _default_decoder (field_class "Item" ["_id"; "name"])
      (VDict [("name", VStr "pen"); ("_id", VObjectId 0)]) = Ok obj
    /\ _default_encoder obj = Ok (VDict fields)
    /\ fields ≡ₚ [("name", VStr "pen"); ("_id", VObjectId 0)]
    /\ (list_to_map fields : gmap string value)
       = list_to_map [("name", VStr "pen"); ("_id", VObjectId 0)]
    /\ forall k, dict_get k fields
                 = dict_get k [("name", VStr "pen"); ("_id", VObjectId 0)].
Proof.
  apply (default_codec_round_trip "Item" ["_id"; "name"]
           [("name", VStr "pen"); ("_id", VObjectId 0)]).
  - repeat (apply NoDup_cons; split; [key_not_in|]). apply NoDup_nil. done.
  - cbn. repeat (apply NoDup_cons; split; [key_not_in|]). apply NoDup_nil. done.
  - cbn. apply perm_swap.
Defined.

(** A document with a key the constructor does not take is refused by the
    default decoder. *)
Example default_decoder_unexpected_key :
  _default_decoder (field_class "Item" ["name"])
    (VDict [("name", VStr "pen"); ("_id", VObjectId 0)]) = Raise TypeError.
Proof. reflexivity. Qed.


(** * Further properties of the data node *)

(** ** List comprehensions *)

(** A comprehension returns when every row is mapped, and then maps the
    rows one by one, in order. *)
Lemma comprehension_Forall2 {A B} (f : A -> result B) (l : list A) (r : list B) :
  comprehension f l = Ok r <-> Forall2 (fun a b => f a = Ok b) l r.
Proof.
  revert r. induction l as [|a l IH]; intros r; cbn.
  - split; [intros [= <-]; constructor | by intros ->%Forall2_nil_inv_l].
  - split.
    + destruct (f a) as [b|] eqn:Hfa; cbn; [|done].
      destruct (comprehension f l) as [bs|]; cbn; [|done].
      intros [= <-]. constructor; [done|]. by apply IH.
    + intros (b & bs & Hfa & Hrest & ->)%Forall2_cons_inv_l.
      rewrite Hfa. cbn. apply IH in Hrest. by rewrite Hrest.
Qed.

(** The first row that raises ends the comprehension with its exception. *)
Lemma comprehension_first_failure {A B} (f : A -> result B)
    (pre post : list A) (r : list B) (x : A) (e : exn) :
  comprehension f pre = Ok r -> f x = Raise e ->
  comprehension f (pre ++ x :: post) = Raise e.
Proof.
  revert r. induction pre as [|a pre IH]; intros r; cbn.
  - intros _ Hx. by rewrite Hx.
  - destruct (f a) as [b|]; cbn; [|done].
    destruct (comprehension f pre) as [bs|] eqn:Hpre; cbn; [|done].
    intros _ Hx. by rewrite (IH bs eq_refl Hx).
Qed.

(** When the function raises one exception only, one refused row makes
    the comprehension raise it. *)
Lemma comprehension_raise_uniform {A B} (f : A -> result B) (l : list A)
    (x : A) (e0 : exn) :
  (forall a e, f a = Raise e -> e = e0) ->
  x ∈ l -> f x = Raise e0 ->
  comprehension f l = Raise e0.
Proof.
  intros Hone Hin Hx. induction l as [|a l IH]; [by apply elem_of_nil in Hin|].
  cbn. destruct (f a) as [b|e] eqn:Hfa; cbn.
  - apply elem_of_cons in Hin as [->|Hin]; [congruence|].
    by rewrite (IH Hin).
  - by rewrite (Hone a e Hfa).
Qed.

Lemma normalize_list (l : list value) : normalize (VList l) = l.
Proof. reflexivity. Qed.

(** ** Construction *)

(** X1. A data node is built only when the dependency check has passed,
    both required keys are present, the value under [custom_document] is
    a class, and the base constructor and the connector have returned;
    the node then holds that class, the values found under [db_name] and
    [collection_name] as its collection, the configuration id it was
    given, and the recognised property names of the base class together
    with the nine names of the adapter. *)
Theorem init_builds_only_valid_nodes env cfg led ver
    (properties : option properties_t) (self : MongoCollectionDataNode) :
  __init__ env cfg led ver properties = Ok self ->
  pymongo_installed env = true
  /\ dict_get _CUSTOM_DOCUMENT_PROPERTY (default [] properties)
     = Some (PClass (custom_document self))
  /\ dict_get DB_NAME_KEY (default [] properties) = Some (collection self).1
  /\ dict_get COLLECTION_KEY (default [] properties) = Some (collection self).2
  /\ config_id self = cfg
  /\ base_taipy_properties env ⊆ _TAIPY_PROPERTIES self
  /\ (forall k, k ∈ [COLLECTION_KEY; DB_NAME_KEY; _CUSTOM_DOCUMENT_PROPERTY;
                     DB_USERNAME_KEY; DB_PASSWORD_KEY; DB_HOST_KEY; DB_PORT_KEY;
                     DB_DRIVER_KEY; DB_EXTRA_ARGS_KEY] ->
                 k ∈ _TAIPY_PROPERTIES self).
Proof.
  unfold __init__, _check_dependency_is_installed.
  destruct (pymongo_installed env); cbn [rbind]; [|done].
  destruct (decide _) as [Hmissing|]; [|done].
  apply missing_empty in Hmissing as [Hdb Hcoll].
  unfold getitem.
  destruct (dict_get _CUSTOM_DOCUMENT_PROPERTY (default [] properties)) as [cd|] eqn:Hcd;
    cbn [rbind]; [|done].
  destruct cd as [cls|v]; cbn [_check_custom_document rbind]; [|done].
  destruct (data_node_init env cfg _ _); cbn [rbind]; [|done].
  destruct (extra_args_items _); cbn [rbind]; [|done].
  destruct (_connect_mongodb env _); cbn [rbind]; [|done].
  destruct (collection_handle env _ _); cbn [rbind]; [|done].
  intros [= <-]. cbn [custom_document collection config_id _TAIPY_PROPERTIES fst snd].
  unfold get_default.
  destruct (dict_get DB_NAME_KEY (default [] properties)) as [dbv|] eqn:Hdbv;
    [|by apply dict_get_None in Hdbv].
  destruct (dict_get COLLECTION_KEY (default [] properties)) as [cv|] eqn:Hcv;
    [|by apply dict_get_None in Hcv].
  repeat (split; [done|]). split.
  - apply union_subseteq_l.
  - intros k Hk. apply elem_of_union. right.
    change (k ∈ (list_to_set
                    [COLLECTION_KEY; DB_NAME_KEY; _CUSTOM_DOCUMENT_PROPERTY;
                     DB_USERNAME_KEY; DB_PASSWORD_KEY; DB_HOST_KEY; DB_PORT_KEY;
                     DB_DRIVER_KEY; DB_EXTRA_ARGS_KEY] : gset string)).
    by rewrite elem_of_list_to_set.
Qed.

Lemma init_builds_only_valid_nodes_witness :
  dict_get _CUSTOM_DOCUMENT_PROPERTY
    (default [] (Some (Sample.properties Sample.Item)))
  = Some (PClass (custom_document (Sample.node Sample.Item)))
  /\ config_id (Sample.node Sample.Item) = "items".
Proof.
  destruct (init_builds_only_valid_nodes Sample.env "items" (Some 0%Z) None
              (Some (Sample.properties Sample.Item)) (Sample.node Sample.Item) eq_refl)
    as (_ & Hclass & _ & _ & Hcfg & _).
  split; [exact Hclass | exact Hcfg].
Defined.

(** X2. The codec of a node that has been built: a callable [decode]
    (resp. [encode]) attribute of the class is the decoder (resp. the
    encoder); an attribute that is absent or not callable leaves the
    default decoder, which calls the class, (resp. the default encoder)
    in place. *)
Theorem init_resolves_codec env cfg led ver
    (properties : option properties_t) (self : MongoCollectionDataNode) :
  __init__ env cfg led ver properties = Ok self ->
  (forall f, cls_decode (custom_document self) = Some (Callable f) -> _decoder self = f)
  /\ ((forall f, cls_decode (custom_document self) <> Some (Callable f)) ->
      _decoder self = _default_decoder (custom_document self))
  /\ (forall f, cls_encode (custom_document self) = Some (Callable f) -> _encoder self = f)
  /\ ((forall f, cls_encode (custom_document self) <> Some (Callable f)) ->
      _encoder self = _default_encoder).
Proof.
  unfold __init__.
  destruct (_check_dependency_is_installed env); cbn [rbind]; [|done].
  destruct (decide _); [|done].
  destruct (getitem _ _) as [cd|]; cbn [rbind]; [|done].
  destruct (_check_custom_document cd) as [cls|]; cbn [rbind]; [|done].
  destruct (data_node_init env cfg _ _); cbn [rbind]; [|done].
  destruct (extra_args_items _); cbn [rbind]; [|done].
  destruct (_connect_mongodb env _); cbn [rbind]; [|done].
  destruct (collection_handle env _ _); cbn [rbind]; [|done].
  intros [= <-]. cbn [custom_document _decoder _encoder].
  repeat split.
  - by intros f ->.
  - intros Hnone. destruct (cls_decode cls) as [[f|v]|]; cbn; [|done..].
    by destruct (Hnone f).
  - by intros f ->.
  - intros Hnone. destruct (cls_encode cls) as [[f|v]|]; cbn; [|done..].
    by destruct (Hnone f).
Qed.

Lemma init_resolves_codec_witness :
  _decoder (Sample.node Sample.Item) = _default_decoder Sample.Item
  /\ _encoder (Sample.node Sample.Item) = _default_encoder.
Proof.
  destruct (init_resolves_codec Sample.env "items" (Some 0%Z) None
              (Some (Sample.properties Sample.Item)) (Sample.node Sample.Item) eq_refl)
    as (_ & Hdec & _ & Henc).
  split; [apply Hdec | apply Henc]; intros f; discriminate.
Defined.

Lemma forallb_refused {A} (f : A -> bool) (l : list A) (x : A) :
  x ∈ l -> f x = false -> forallb f l = false.
Proof.
  intros Hin Hx. induction l as [|a l IH]; [by apply elem_of_nil in Hin|].
  cbn. apply elem_of_cons in Hin as [<-|Hin]; [by rewrite Hx|].
  rewrite (IH Hin). by destruct (f a).
Qed.

(** X3. The extra connection arguments are turned into a frozen set of
    items before the connector is called: with the checks passed and the
    base constructor returning, a [db_extra_args] that is a plain value
    other than a mapping makes construction raise [AttributeError], and a
    mapping with an unhashable value (a list, a dict, or a tuple holding
    one) makes it raise [TypeError]. *)
Theorem init_rejects_extra_args env cfg led ver
    (properties : option properties_t) (cls : pyclass) (v : value) :
  pymongo_installed env = true ->
  DB_NAME_KEY ∈ keys (default [] properties) ->
  COLLECTION_KEY ∈ keys (default [] properties) ->
  dict_get _CUSTOM_DOCUMENT_PROPERTY (default [] properties) = Some (PClass cls) ->
  (forall version, data_node_init env cfg version (default [] properties) = Ok tt) ->
  dict_get DB_EXTRA_ARGS_KEY (default [] properties) = Some (PValue v) ->
  (is_dict v = false -> is_instance v = false ->
     __init__ env cfg led ver properties = Raise (AttributeError "items"))
  /\ (forall d k w, v = VDict d -> (k, w) ∈ d -> hashable w = false ->
        __init__ env cfg led ver properties = Raise TypeError).
Proof.
  intros Hdep Hdb Hcoll Hcd Hbase Hextra.
  assert (Hstep : forall e, extra_args_items (PValue v) = Raise e ->
                            __init__ env cfg led ver properties = Raise e).
  { intros e He. unfold __init__, _check_dependency_is_installed.
    rewrite Hdep. cbn [rbind].
    destruct (decide _) as [_|Hne]; [|by destruct Hne; apply missing_empty].
    unfold getitem. rewrite Hcd. cbn [rbind _check_custom_document].
    rewrite Hbase. cbn [rbind]. unfold get_default at 1. rewrite Hextra, He. done. }
  split.
  - intros Hd Hi. apply Hstep. by destruct v.
  - intros d k w -> Hin Hw. apply Hstep. cbn.
    by rewrite (forallb_refused (fun kv => hashable kv.2) d (k, w) Hin Hw).
Qed.

Lemma init_rejects_extra_args_witness :
  __init__ Sample.env "items" None None
    (Some (Sample.properties Sample.Item
           ++ [("db_extra_args", PValue (VDict [("tags", VList [VStr "a"])]))]))
  = Raise TypeError.
Proof.
  destruct (init_rejects_extra_args Sample.env "items" None None
              (Some (Sample.properties Sample.Item
                     ++ [("db_extra_args", PValue (VDict [("tags", VList [VStr "a"])]))]))
              Sample.Item (VDict [("tags", VList [VStr "a"])])) as [_ Hunhashable].
  - reflexivity.
  - key_in.
  - key_in.
  - reflexivity.
  - reflexivity.
  - reflexivity.
  - apply (Hunhashable [("tags", VList [VStr "a"])] "tags" (VList [VStr "a"]));
      [reflexivity | apply elem_of_cons; by left | reflexivity].
Defined.

(** ** Reading and filtering *)

(** X4. Reading never changes the collection: whatever the conditions,
    the join mode and the outcome (a result, an exception of the
    translation, of the store or of the decoder), [_read_by_query],
    [filter] and [_read] leave the state they found. *)
Theorem reads_leave_collection drv self operators join_operator st :
  (_read_by_query drv operators join_operator st).2 = st
  /\ (filter drv self operators join_operator st).2 = st
  /\ (_read drv self st).2 = st.
Proof.
  assert (Hq : (_read_by_query drv operators join_operator st).2 = st).
  { unfold _read_by_query, bind, lift.
    destruct (translate operators join_operator) as [[|query]|e]; done. }
  split; [done|]. split; [|done].
  unfold filter, bind. destruct (_read_by_query _ _ _ _) as [[rows|e] st'] eqn:Hrows.
  - by cbn in *.
  - by cbn in *.
Qed.

(** X5. Filtering on no condition is reading everything, under every
    join mode, the unsupported ones included. *)
Theorem filter_without_conditions drv self join_operator st :
  filter drv self (OpsList []) join_operator st = _read drv self st
  /\ filter drv self OpsNone join_operator st = _read drv self st.
Proof. apply filter_nothing_is_read. Qed.

(** X6. Reading returns when the decoder accepts every document, and
    then returns one object per document, in the order of the collection,
    each the decoded form of its document; the first document the decoder
    refuses ends the reading with the decoder's exception. *)
Theorem read_decodes_in_order drv self st :
  (forall objs, _read drv self st = (Ok objs, st)
                <-> Forall2 (fun d o => _decoder self d = Ok o) (documents st) objs)
  /\ (forall objs, _read drv self st = (Ok objs, st) ->
        length objs = length (documents st))
  /\ (forall pre d post objs e,
        documents st = pre ++ d :: post ->
        comprehension (_decoder self) pre = Ok objs ->
        _decoder self d = Raise e ->
        _read drv self st = (Raise e, st)).
Proof.
  rewrite read_decodes_documents. split; [|split].
  - intros objs. rewrite <- comprehension_Forall2. split; [by intros [= ->]|by intros ->].
  - intros objs [= Hobjs]. by apply comprehension_length in Hobjs.
  - intros pre d post objs e -> Hpre Hd.
    by rewrite (comprehension_first_failure _ pre post objs d e Hpre Hd).
Qed.

(** X7. Filtering on a non-empty list of conditions under AND or OR hands
    the store the [$and] (resp. [$or]) document over the predicates of the
    conditions, decodes the rows the store returns, and raises what the
    store raises; under any other join mode it raises
    [NotImplementedError] and neither the store nor the decoder is
    consulted. *)
Theorem filter_queries_then_decodes drv self (c : condition) (l : list condition) st :
  (forall j : JoinOperator,
     filter drv self (OpsList (c :: l)) (JoinMember j) st
     = (rbind (eval_filter drv
                 (VDict [(join_key j, VList (flat_map predicates_of (c :: l)))])
                 (documents st))
              (comprehension (_decoder self)), st))
  /\ (forall w, filter drv self (OpsList (c :: l)) (JoinForeign w) st
                = (Raise NotImplementedError, st)).
Proof.
  split.
  - intros j. unfold filter, _read_by_query, bind, lift.
    rewrite translate_member. cbn [find].
    by destruct (eval_filter drv _ _).
  - intros w. unfold filter, _read_by_query, bind, lift, translate. cbn [truthy negb].
    done.
Qed.

(** ** Appending and writing *)

Lemma insert_many_returns drv data st st' :
  insert_many drv data st = (Ok tt, st') ->
  exists ds, comprehension as_document data = Ok ds /\ st' = after_insert drv st ds.
Proof.
  unfold insert_many. destruct data as [|x l]; [done|].
  destruct (comprehension as_document (x :: l)) as [ds|]; [|done].
  destruct (refusal drv _ _ _) as [[k e]|]; [done|].
  intros [= <-]. by exists ds.
Qed.

Lemma as_document_refused (docs : list value) :
  forallb is_dict docs = false -> comprehension as_document docs = Raise TypeError.
Proof.
  induction docs as [|v docs IH]; cbn; [done|].
  destruct v; cbn; try done. intros Hrest. by rewrite (IH Hrest).
Qed.

Lemma insertion_count drv self data st st' :
  (_append drv self data st = (Ok tt, st') ->
     length (documents st') = length (documents st) + length (normalize data))
  /\ (_write drv self data st = (Ok tt, st') ->
        length (documents st') = length (normalize data)).
Proof.
  destruct (normalize data) as [|first rest] eqn:Hn.
  - unfold _append, _write. rewrite Hn. split; intros [= <-]; cbn; [lia|done].
  - assert (Hcount : forall docs s s', length docs = length (first :: rest) ->
              insert_many drv docs s = (Ok tt, s') ->
              length (documents s') = length (documents s) + length (first :: rest)).
    { intros docs s s' Hlen (ds & Hds & ->)%insert_many_returns.
      apply comprehension_length in Hds. cbn [after_insert documents].
      rewrite length_app, stored_length. lia. }
    destruct (is_dict first) eqn:Hd.
    + rewrite (append_first_mapping _ _ _ _ _ _ Hn Hd), (write_first_mapping _ _ _ _ _ _ Hn Hd).
      rewrite insert_dicts_keep, insert_dicts_drop.
      split; intros Hins; apply Hcount in Hins; done.
    + rewrite (append_first_other _ _ _ _ _ _ Hn Hd), (write_first_other _ _ _ _ _ _ Hn Hd).
      destruct (comprehension (_encoder self) (first :: rest)) as [docs|] eqn:Henc;
        [|split; done].
      apply comprehension_length in Henc.
      rewrite insert_dicts_keep, insert_dicts_drop.
      split; intros Hins; apply Hcount in Hins; done.
Qed.

(** X8. A call that returns has stored one document per element of the
    normalized input: [_append] leaves as many documents more as it was
    given elements, [_write] leaves exactly as many documents as it was
    given elements. *)
Theorem stored_count drv self data st st' :
  (_append drv self data st = (Ok tt, st') ->
     length (documents st') = length (documents st) + length (normalize data))
  /\ (_write drv self data st = (Ok tt, st') ->
        length (documents st') = length (normalize data)).
Proof. apply insertion_count. Qed.

Lemma stored_count_witness :
  length (documents (after_insert Sample.mongo Sample.one_item
                       [[("name", VStr "ink")]; [("name", VStr "nib")]]))
  = length (documents Sample.one_item)
    + length (normalize (VList [VDict [("name", VStr "ink")]; VDict [("name", VStr "nib")]])).
Proof.
  apply (stored_count Sample.mongo (Sample.node Sample.Item)
           (VList [VDict [("name", VStr "ink")]; VDict [("name", VStr "nib")]])
           Sample.one_item).
  reflexivity.
Defined.

(** X10. Unless the encoder raises, writing is appending to the emptied
    collection: same outcome, same state, also when the store refuses the
    insertion. *)
Theorem write_is_append_after_drop drv self data st :
  (forall first rest,
     normalize data = first :: rest -> is_dict first = false ->
     exists docs, comprehension (_encoder self) (first :: rest) = Ok docs) ->
  _write drv self data st = _append drv self data (emptied st).
Proof.
  intros Henc. destruct (normalize data) as [|first rest] eqn:Hn.
  - unfold _write, _append. by rewrite Hn.
  - destruct (is_dict first) eqn:Hd.
    + by rewrite (write_first_mapping _ _ _ _ _ _ Hn Hd),
                 (append_first_mapping _ _ _ _ _ _ Hn Hd).
    + rewrite (write_first_other _ _ _ _ _ _ Hn Hd), (append_first_other _ _ _ _ _ _ Hn Hd).
      destruct (Henc first rest eq_refl Hd) as [docs ->]. done.
Qed.

Lemma write_is_append_after_drop_witness :
  _write Sample.mongo (Sample.node Sample.Item)
    (VList [VObj "Item" [("name", VStr "ink")]]) Sample.one_item
  = _append Sample.mongo (Sample.node Sample.Item)
      (VList [VObj "Item" [("name", VStr "ink")]]) (emptied Sample.one_item).
Proof.
  apply (write_is_append_after_drop Sample.mongo (Sample.node Sample.Item)
           (VList [VObj "Item" [("name", VStr "ink")]]) Sample.one_item).
  intros first rest [= <- <-] _. by eexists.
Defined.

(** X11. The drop of a write is not undone. When the elements that reach
    the insertion (the list itself when its first element is a mapping,
    its encoding otherwise) are not all mappings, the store refuses them:
    [_write] raises and leaves the collection empty, [_append] raises and
    leaves the collection as it was. *)
Theorem refused_insertion drv self data first rest docs st :
  normalize data = first :: rest ->
  (if is_dict first then Ok (first :: rest)
   else comprehension (_encoder self) (first :: rest)) = Ok docs ->
  forallb is_dict docs = false ->
  _write drv self data st = (Raise TypeError, emptied st)
  /\ _append drv self data st = (Raise TypeError, st).
Proof.
  intros Hn Hdocs Hrefused.
  assert (Hins : forall s, insert_many drv docs s = (Raise TypeError, s)).
  { intros s. unfold insert_many. destruct docs as [|x l]; [done|].
    by rewrite (as_document_refused _ Hrefused). }
  destruct (is_dict first) eqn:Hd.
  - injection Hdocs as <-.
    rewrite (write_first_mapping _ _ _ _ _ _ Hn Hd), (append_first_mapping _ _ _ _ _ _ Hn Hd).
    by rewrite insert_dicts_drop, insert_dicts_keep, !Hins.
  - rewrite (write_first_other _ _ _ _ _ _ Hn Hd), (append_first_other _ _ _ _ _ _ Hn Hd).
    by rewrite Hdocs, insert_dicts_drop, insert_dicts_keep, !Hins.
Qed.

Lemma refused_insertion_witness :
  _write Sample.mongo (Sample.node Sample.Item)
    (VList [VDict [("name", VStr "ink")]; VStr "nib"]) Sample.one_item
  = (Raise TypeError, emptied Sample.one_item)
  /\ _append Sample.mongo (Sample.node Sample.Item)
       (VList [VDict [("name", VStr "ink")]; VStr "nib"]) Sample.one_item
     = (Raise TypeError, Sample.one_item).
Proof.
  apply (refused_insertion Sample.mongo (Sample.node Sample.Item)
           (VList [VDict [("name", VStr "ink")]; VStr "nib"])
           (VDict [("name", VStr "ink")]) [VStr "nib"]
           [VDict [("name", VStr "ink")]; VStr "nib"] Sample.one_item);
    reflexivity.
Defined.

(** X12. With the default encoder, an input that does not start with a
    mapping and holds anything but instances of classes is refused before
    the collection is touched: [_append] and [_write] raise
    [AttributeError] and leave the collection as it was.  A tuple of
    documents is such an input, since only a list is taken as a
    sequence. *)
Theorem default_encoder_refuses drv self data first rest st :
  (forall v, _encoder self v = _default_encoder v) ->
  normalize data = first :: rest ->
  is_dict first = false ->
  forallb is_instance (first :: rest) = false ->
  _append drv self data st = (Raise (AttributeError "__dict__"), st)
  /\ _write drv self data st = (Raise (AttributeError "__dict__"), st).
Proof.
  intros Hdefault Hn Hd Hother.
  assert (Henc : comprehension (_encoder self) (first :: rest)
                 = Raise (AttributeError "__dict__")).
  { assert (Hex : exists x, x ∈ first :: rest /\ is_instance x = false).
    { clear -Hother. induction (first :: rest) as [|a l IH]; [done|].
      cbn in Hother. destruct (is_instance a) eqn:Ha.
      - destruct (IH Hother) as (x & Hin & Hx). exists x. split; [|done].
        apply elem_of_cons. by right.
      - exists a. split; [apply elem_of_cons; by left | done]. }
    destruct Hex as (x & Hin & Hx).
    apply (comprehension_raise_uniform _ _ x); [|done|].
    - intros a e. rewrite Hdefault. destruct a; cbn; congruence.
    - rewrite Hdefault. by destruct x. }
  rewrite (append_first_other _ _ _ _ _ _ Hn Hd), (write_first_other _ _ _ _ _ _ Hn Hd).
  by rewrite Henc.
Qed.

Lemma default_encoder_refuses_witness :
  _append Sample.mongo (Sample.node Sample.Item)
    (VTuple [VDict [("name", VStr "ink")]; VDict [("name", VStr "nib")]]) Sample.one_item
  = (Raise (AttributeError "__dict__"), Sample.one_item)
  /\ _write Sample.mongo (Sample.node Sample.Item)
       (VTuple [VDict [("name", VStr "ink")]; VDict [("name", VStr "nib")]]) Sample.one_item
     = (Raise (AttributeError "__dict__"), Sample.one_item).
Proof.
  apply (default_encoder_refuses Sample.mongo (Sample.node Sample.Item)
           (VTuple [VDict [("name", VStr "ink")]; VDict [("name", VStr "nib")]])
           (VTuple [VDict [("name", VStr "ink")]; VDict [("name", VStr "nib")]]) []
           Sample.one_item); reflexivity.
Defined.

(** ** The default codec, continued *)

(** The constructor of a field class raises [TypeError] only. *)
Lemma field_init_raises (name : string) (params : list string) (kwargs : pydict) (e : exn) :
  field_init name params kwargs = Raise e -> e = TypeError.
Proof.
  unfold field_init. destruct (forallb _ _); [|by intros [= <-]].
  destruct (comprehension _ params) as [fields|e'] eqn:Hc; cbn; [done|].
  intros [= <-]. clear -Hc. induction params as [|p params IH]; cbn in Hc; [done|].
  destruct (dict_get p kwargs); cbn in Hc; [|by injection Hc as <-].
  destruct (comprehension _ params); cbn in Hc; [done|]. by apply IH.
Qed.

(** Looking the keys of a mapping up in a mapping that holds its entries
    gives the mapping back. *)
Lemma bind_own_fields (l fields : pydict) :
  (forall k v, (k, v) ∈ l -> dict_get k fields = Some v) ->
  comprehension (fun p => match dict_get p fields with
                          | Some v => Ok (p, v)
                          | None => Raise TypeError
                          end) (keys l) = Ok l.
Proof.
  induction l as [|[k v] l IH]; intros Hget; cbn; [done|].
  rewrite (Hget k v); [|apply elem_of_cons; by left]. cbn.
  unfold keys in IH. rewrite IH; [done|].
  intros k' v' Hin. apply Hget, elem_of_cons. by right.
Qed.

(** The fields a constructor call leaves are its parameters, in order. *)
Lemma field_init_fields (name : string) (params : list string) (kwargs : pydict)
    (obj : value) :
  field_init name params kwargs = Ok obj ->
  exists fields, obj = VObj name fields /\ keys fields = params.
Proof.
  unfold field_init. destruct (forallb _ _); [|done].
  destruct (comprehension _ params) as [fields|] eqn:Hc; cbn; [|done].
  intros [= <-]. exists fields. split; [done|].
  clear -Hc. revert fields Hc. unfold keys.
  induction params as [|p params IH]; intros fields; cbn.
  - by intros [= <-].
  - destruct (dict_get p kwargs); cbn; [|done].
    destruct (comprehension _ params) as [rest|]; cbn; [|done].
    intros [= <-]. cbn. f_equal. by apply IH.
Qed.

(** X13. Round trip of the default codec, from the object: an instance
    built by the constructor of a field class is encoded to its
    [__dict__], and decoding that mapping with the default decoder builds
    the same instance again. *)
Theorem constructed_object_round_trip (name : string) (params : list string)
    (kwargs : pydict) (obj : value) :
  NoDup params ->
  cls_init (field_class name params) kwargs = Ok obj ->
  exists fields,
    _default_encoder obj = Ok (VDict fields)
    /\ _default_decoder (field_class name params) (VDict fields) = Ok obj.
Proof.
  intros Hparams Hinit. cbn in Hinit.
  destruct (field_init_fields name params kwargs obj Hinit) as (fields & -> & Hk).
  exists fields. split; [done|]. cbn. unfold field_init.
  assert (Hall : forallb (fun k => bool_decide (k ∈ params)) (keys fields) = true).
  { apply Is_true_eq_true, forallb_True, Forall_forall.
    intros k Hin. apply bool_decide_pack. by rewrite <- Hk. }
  rewrite Hall, <- Hk at 1.
  rewrite bind_own_fields; [done|].
  intros k v Hin. apply elem_dict_get; [by rewrite Hk | done].
Qed.

Lemma constructed_object_round_trip_witness :
  exists fields,
    _default_encoder (VObj "Item" [("_id", VInt 7); ("name", VStr "pen")])
    = Ok (VDict fields)
    /\ _default_decoder (field_class "Item" ["_id"; "name"]) (VDict fields)
       = Ok (VObj "Item" [("_id", VInt 7); ("name", VStr "pen")]).
Proof.
  apply (constructed_object_round_trip "Item" ["_id"; "name"]
           [("name", VStr "pen"); ("_id", VInt 7)]).
  - repeat (apply NoDup_cons; split; [key_not_in|]). apply NoDup_nil. done.
  - reflexivity.
Defined.

(** A call of the constructor of a field class with a keyword that is
    not a parameter, or without a keyword for a parameter, raises
    [TypeError]. *)
Lemma field_class_refuses (name : string) (params : list string) (d : pydict) :
  (exists k, k ∈ keys d /\ k ∉ params) \/ (exists p, p ∈ params /\ p ∉ keys d) ->
  field_init name params d = Raise TypeError.
Proof.
  intros Hmismatch.
  destruct (field_init name params d) as [obj|e] eqn:Hinit;
    [|by rewrite (field_init_raises _ _ _ _ Hinit)].
  exfalso. unfold field_init in Hinit.
  destruct (forallb _ _) eqn:Hall; [|done].
  destruct Hmismatch as [(k & Hin & Hout)|(p & Hin & Hout)].
  - apply Is_true_eq_left, forallb_True in Hall.
    rewrite Forall_forall in Hall. apply Hall, bool_decide_unpack in Hin. done.
  - apply dict_get_None in Hout.
    rewrite (comprehension_raise_uniform _ params p TypeError) in Hinit; [done| |done|].
    + intros a e. destruct (dict_get a d); [done|by intros [= <-]].
    + by rewrite Hout.
Qed.

(** X14. The default decoder hands every key of the document to the
    constructor: for a field class it raises [TypeError] as soon as the
    document has a key that is not a parameter, or lacks a parameter. *)
Theorem default_decoder_key_mismatch (name : string) (params : list string) (d : pydict) :
  (exists k, k ∈ keys d /\ k ∉ params) \/ (exists p, p ∈ params /\ p ∉ keys d) ->
  _default_decoder (field_class name params) (VDict d) = Raise TypeError.
Proof. intros Hmismatch. cbn. by apply field_class_refuses. Qed.

Lemma default_decoder_key_mismatch_witness :
  _default_decoder (field_class "Item" ["name"])
    (VDict [("name", VStr "pen"); ("_id", VObjectId 0)]) = Raise TypeError.
Proof.
  apply (default_decoder_key_mismatch "Item" ["name"]
           [("name", VStr "pen"); ("_id", VObjectId 0)]).
  left. exists "_id". split; [key_in | key_not_in].
Defined.

(** X15. Nothing is stripped from a document before it is decoded: with
    the default decoder of a field class, one document of the collection
    that carries a key the constructor does not take (the identity field
    the store has added, for one) makes reading raise [TypeError]. *)
Theorem read_refuses_unexpected_field drv self (name : string) (params : list string)
    (d : pydict) (k : string) st :
  (forall v, _decoder self v = _default_decoder (field_class name params) v) ->
  VDict d ∈ documents st ->
  k ∈ keys d -> k ∉ params ->
  _read drv self st = (Raise TypeError, st).
Proof.
  intros Hdefault Hin Hk Hout. rewrite read_decodes_documents. f_equal.
  apply (comprehension_raise_uniform _ _ (VDict d)); [|done|].
  - intros a e. rewrite Hdefault. destruct a; cbn; try by intros [= <-].
    apply field_init_raises.
  - rewrite Hdefault. cbn. apply field_class_refuses. left. by exists k.
Qed.

Lemma read_refuses_unexpected_field_witness :
  _read Sample.mongo (Sample.node (field_class "Item" ["name"])) Sample.one_item
  = (Raise TypeError, Sample.one_item).
Proof.
  apply (read_refuses_unexpected_field Sample.mongo
           (Sample.node (field_class "Item" ["name"])) "Item" ["name"]
           [("name", VStr "pen"); ("_id", VObjectId 0)] "_id" Sample.one_item).
  - reflexivity.
  - apply elem_of_cons. by left.
  - key_in.
  - key_not_in.
Defined.

(** ** Appending, then reading *)

Lemma comprehension_app_eq {A B} (f : A -> result B) (l1 l2 : list A) :
  comprehension f (l1 ++ l2)
  = rbind (comprehension f l1) (fun r1 =>
      rbind (comprehension f l2) (fun r2 => Ok (r1 ++ r2))).
Proof.
  induction l1 as [|a l1 IH]; cbn.
  - by destruct (comprehension f l2).
  - destruct (f a) as [b|]; cbn; [|done]. rewrite IH.
    destruct (comprehension f l1) as [r1|]; cbn; [|done].
    by destruct (comprehension f l2).
Qed.

(** X16. Reading after an append that has returned: the collection holds
    the documents it held, followed by one new document per element
    appended; when the earlier documents decode to [objs], reading gives
    [objs] followed by the decoded forms of the new documents, or the
    exception the decoder raises on one of these. *)
Theorem read_after_append drv self data st st' (objs : list value) :
  _append drv self data st = (Ok tt, st') ->
  comprehension (_decoder self) (documents st) = Ok objs ->
  exists added,
    documents st' = documents st ++ added
    /\ length added = length (normalize data)
    /\ _read drv self st'
       = (rbind (comprehension (_decoder self) added) (fun new => Ok (objs ++ new)), st').
Proof.
  intros Happend Hobjs.
  destruct (append_keeps drv self data st) as [added Hadded].
  rewrite Happend in Hadded. cbn in Hadded.
  exists added. split; [done|]. split.
  - destruct (insertion_count drv self data st st') as [Hcount _].
    specialize (Hcount Happend). rewrite Hadded, length_app in Hcount. lia.
  - rewrite read_decodes_documents, Hadded, comprehension_app_eq, Hobjs. done.
Qed.

Lemma read_after_append_witness :
  exists added,
    documents (after_insert Sample.mongo Sample.one_item [[("name", VStr "ink")]])
    = documents Sample.one_item ++ added
    /\ length added = length (normalize (VDict [("name", VStr "ink")]))
    /\ _read Sample.mongo (Sample.node Sample.Flexible)
         (after_insert Sample.mongo Sample.one_item [[("name", VStr "ink")]])
       = (rbind (comprehension (_decoder (Sample.node Sample.Flexible)) added)
            (fun new => Ok ([Sample.flexible [("name", VStr "pen"); ("_id", VObjectId 0)]]
                            ++ new)),
          after_insert Sample.mongo Sample.one_item [[("name", VStr "ink")]]).
Proof.
  apply (read_after_append Sample.mongo (Sample.node Sample.Flexible)
           (VDict [("name", VStr "ink")]) Sample.one_item); reflexivity.
Defined.
